(** * Multi-LLM platform: conversation lifecycle, uploads and history

    A shallow embedding of [app.py]: the Flask views [chat], [api_chat],
    [upload_file], [history] and [view_conversation], together with the
    part of the sqlite3 store they read and write; then the account and
    contact views, and the control flow of [setup.py].

    Conventions of the embedding.
    - A Python [str] is a [string], one [ascii] per character, so the
      model covers the strings whose code points are below 256.
    - A SQLite INTEGER is a [Z]; a TIMESTAMP is a [Z] (seconds), compared
      the way the fixed-width text compares.
    - A JSON field read with [data.get] is an [option]: [None] when the key
      is absent or null.
    - The sqlite3 connection is modelled with the module's default
      transaction control: the first INSERT opens a transaction,
      [conn.commit()] makes the pending rows durable, and a connection
      closed (or dropped) without a commit loses them.
    - [ORDER BY] is given by an engine.  What the query text promises is
      [order_by_contract]: a permutation of the rows sorted on the key.
      What SQLite does for the queries of this program, a scan in rowid
      order whose rows with equal keys stay in scan order, is
      [order_by_stable].
    - The views take ids the engine can bind.  [api_chat_json] and
      [view_conversation_url] add what sqlite3 does with an integer of a
      request that does not fit 64 bits. *)

From Stdlib Require Import ZArith String Ascii List Bool Lia.
From Stdlib Require Import Sorting.Sorted Sorting.Permutation DecimalString.
From stdpp Require Import gmap strings list fin_maps.

Local Open Scope Z_scope.
Local Open Scope string_scope.

(** ** Python string primitives *)

Module PyStr.

(** [s.replace(old, new)] for one-character [old] and [new]. *)
Fixpoint replace (old new : ascii) (s : string) : string :=
  match s with
  | EmptyString => EmptyString
  | String c r =>
      String (if Ascii.eqb c old then new else c) (replace old new r)
  end.

(** [c in s] for a one-character [c]. *)
Fixpoint contains (c : ascii) (s : string) : bool :=
  match s with
  | EmptyString => false
  | String d r => Ascii.eqb d c || contains c r
  end.

(** [s.rsplit(sep, 1)]: one piece when [sep] does not occur, otherwise
    the text before the last [sep] and the text after it. *)
Fixpoint rsplit1 (sep : ascii) (s : string) : list string :=
  match s with
  | EmptyString => [EmptyString]
  | String c r =>
      match rsplit1 sep r with
      | [h; t] => [String c h; t]
      | _ => if Ascii.eqb c sep then [EmptyString; r] else [String c r]
      end
  end.

(** [c.lower()] on code points below 256: A-Z and the Latin-1 capitals
    (all of 192..222 but the multiplication sign 215) move up by 32. *)
Definition lower_char (c : ascii) : ascii :=
  let n := N_of_ascii c in
  if ((65 <=? n) && (n <=? 90))%N
     || ((192 <=? n) && (n <=? 222) && negb (n =? 215))%N
  then ascii_of_N (n + 32) else c.

Fixpoint lower (s : string) : string :=
  match s with
  | EmptyString => EmptyString
  | String c r => String (lower_char c) (lower r)
  end.

(** [len(s)] *)
Definition len (s : string) : Z := Z.of_nat (String.length s).

(** [s[:n]] for a non-negative literal [n]. *)
Definition slice_to (n : nat) (s : string) : string := String.substring 0 n s.

(** [str(n)], as an f-string renders an int. *)
Definition of_int (n : Z) : string := NilZero.string_of_int (Z.to_int n).

End PyStr.

(** ** Domain registry: the [MODELS] table *)

Record DomainInfo := {
  name : string;
  models : list string;
  description : string
}.

(** The icon glyphs are outside the modelled character range and are left
    out of the record; no view looks at them. *)
Definition MODELS : gmap string DomainInfo :=
  list_to_map [
    ("healthcare",
      {| name := "Healthcare";
         models := ["Jayasimma/bharatbuddy"; "Jayasimma/Puzhavan"];
         description := "Medical advice, health information, and wellness guidance" |});
    ("agriculture",
      {| name := "Agriculture";
         models := ["Jayasimma/gennai"; "Jayasimma/Puzhavan"];
         description := "Farming techniques, crop management, and agricultural practices" |});
    ("coding",
      {| name := "Coding";
         models := ["Jayasimma/codemium_ai"; "Jayasimma/creaton-ai"];
         description := "Programming help, code review, and software development" |});
    ("education",
      {| name := "Education";
         models := ["Jayasimma/Buddyllama"; "Jayasimma/creaton-ai"];
         description := "Learning resources, tutoring, and educational content" |});
    ("nature_medicine",
      {| name := "Natural Medicine";
         models := ["Jayasimma/Puzhavan"; "Jayasimma/bharatbuddy"];
         description := "Herbal remedies, traditional medicine, and natural healing" |});
    ("tamil",
      {| name := "Tamil Language";
         models := ["conceptsintamil/tamil-llama-7b-instruct-v0.2"; "Jayasimma/Buddyllama"];
         description := "Tamil language support, translation, and cultural information" |})
  ].

(** ** The persistence store *)

(** One record per table of [init_db] that the modelled views touch;
    nullable columns are options.  A table is the list of its rows in
    rowid order. *)
Record Conversation := {
  c_id : Z;
  c_user_id : Z;
  c_model_name : string;
  c_domain : string;
  c_title : option string;
  c_created_at : Z
}.

Record Message := {
  m_id : Z;
  m_conversation_id : Z;
  m_user_id : Z;
  m_role : string;
  m_content : string;
  m_input_type : option string;
  m_file_path : option string;
  m_created_at : Z
}.

(** [conversation_id] keeps the raw form value the view binds. *)
Record UploadedFile := {
  f_id : Z;
  f_user_id : Z;
  f_conversation_id : option string;
  f_filename : string;
  f_file_path : string;
  f_file_type : string;
  f_uploaded_at : Z
}.

(** The [seq_] fields are the AUTOINCREMENT counters of [sqlite_sequence]:
    the largest rowid handed out so far in each table. *)
Record Database := {
  conversations : list Conversation;
  messages : list Message;
  uploaded_files : list UploadedFile;
  seq_conversations : Z;
  seq_messages : Z;
  seq_uploaded_files : Z
}.

Definition empty_db : Database :=
  {| conversations := []; messages := []; uploaded_files := [];
     seq_conversations := 0; seq_messages := 0; seq_uploaded_files := 0 |}.

(** ** Requests, responses and the outside world *)

(** [session] holds [user_id] after a login and nothing before. *)
Definition Session := option Z.

Inductive JVal :=
  | JBool (b : bool)
  | JStr (s : string)
  | JInt (n : Z).

(** What [history] hands to its template, one tuple per row. *)
Record HistoryRow := {
  h_id : Z;
  h_model_name : string;
  h_domain : string;
  h_title : option string;
  h_created_at : Z;
  h_message_count : Z
}.

Inductive Response :=
  | Json (status : Z) (body : list (string * JVal))
  | Redirect (endpoint flashed : string)
  | Abort (status : Z)
  | Unhandled (exception : string)
  | RenderChat (domain model_name : string) (domain_info : DomainInfo)
  | RenderHistory (rows : list HistoryRow)
  | RenderConversation (conversation : Conversation)
                       (transcript : list (string * string * Z)).

(** [body.get(key)] on a JSON object. *)
Fixpoint json_get (key : string) (body : list (string * JVal)) : option JVal :=
  match body with
  | [] => None
  | (k, v) :: rest => if String.eqb k key then Some v else json_get key rest
  end.

(** The JSON object posted to [/api/chat]. *)
Record ChatData := {
  d_model : option string;
  d_message : option string;
  d_conversation_id : option Z;
  d_domain : option string
}.

(** A part of [request.files]. *)
Record FileStorage := {
  filename : string;
  stream : string
}.

(** The multipart request posted to [/api/upload]. *)
Record UploadRequest := {
  content_length : Z;
  files_file : option FileStorage;
  form_conversation_id : option string
}.

Inductive OllamaResult :=
  | Generated (content : string)
  | Raised (error : string).

(** Everything a view consults outside its arguments and the store:
    the SQL clock read by the n-th INSERT of a request, the inference
    backend, werkzeug's [secure_filename], the formatted wall clock of
    [datetime.now().strftime], and the engine's ORDER BY. *)
Record Env := {
  current_timestamp : nat -> Z;
  ollama_chat : option string -> option string -> OllamaResult;
  secure_filename : string -> string;
  strftime_now : string;
  order_by : forall A : Type, (A -> Z) -> list A -> list A
}.

(** What the engine's ORDER BY promises: the same rows, sorted on the key. *)
Definition order_by_contract
    (ob : forall A : Type, (A -> Z) -> list A -> list A) : Prop :=
  forall (A : Type) (key : A -> Z) (rows : list A),
    Permutation rows (ob A key rows) /\
    Sorted (fun x y => key x <= key y) (ob A key rows).

(** ** A connection and its statements *)

Inductive Event :=
  | SqlInsertConversation (row : Conversation)
  | SqlInsertMessage (row : Message)
  | SqlInsertUploadedFile (row : UploadedFile)
  | OllamaChat (model content : option string) (result : OllamaResult)
  | FileSave (path : string)
  | SqlCommit
  | SqlClose.

(** A connection: the durable store, the store as the open transaction
    sees it, the statements executed so far on it, and the log of what
    the request did. *)
Record Conn := {
  durable : Database;
  pending : Database;
  executed : nat;
  log : list Event
}.

Definition connect (db : Database) : Conn :=
  {| durable := db; pending := db; executed := 0; log := [] |}.

(** A computation on a connection that returns or raises. *)
Definition Sql (A : Type) : Type := Conn -> (string + A) * Conn.

Definition raise {A} (exception : string) : Sql A := fun c => (inl exception, c).

#[global] Instance sql_ret : MRet Sql := fun A a c => (inr a, c).

#[global] Instance sql_bind : MBind Sql := fun A B k m c =>
  match m c with
  | (inl e, c') => (inl e, c')
  | (inr a, c') => k a c'
  end.

Definition emit (e : Event) : Sql unit :=
  fun c => (inr tt, {| durable := durable c; pending := pending c;
                       executed := executed c; log := log c ++ [e] |}).

(** [try: body except Exception as e: handler(str(e))] *)
Definition try_except {A} (body : Sql A) (handler : string -> Sql A) : Sql A :=
  fun c =>
    match body c with
    | (inl e, c') => handler e c'
    | (inr a, c') => (inr a, c')
    end.

(** [try: body finally: cleanup] *)
Definition try_finally {A} (body : Sql A) (cleanup : Sql unit) : Sql A :=
  fun c =>
    match body c with
    | (r, c') =>
        match cleanup c' with
        | (inl e, c'') => (inl e, c'')
        | (inr _, c'') => (r, c'')
        end
    end.

(** A bound parameter for a NOT NULL column. *)
Definition not_null {A} (column : string) (v : option A) : Sql A :=
  match v with
  | Some a => mret a
  | None => raise ("NOT NULL constraint failed: " +:+ column)
  end.

(** [CURRENT_TIMESTAMP] as the next statement reads it. *)
Definition default_timestamp (env : Env) : Sql Z :=
  fun c => (inr (current_timestamp env (executed c)),
            {| durable := durable c; pending := pending c;
               executed := S (executed c); log := log c |}).

Definition update_pending (f : Database -> Database) : Sql unit :=
  fun c => (inr tt, {| durable := durable c; pending := f (pending c);
                       executed := executed c; log := log c |}).

Definition read_pending {A} (f : Database -> A) : Sql A :=
  fun c => (inr (f (pending c)), c).

Definition commit : Sql unit :=
  fun c => (inr tt, {| durable := pending c; pending := pending c;
                       executed := executed c; log := log c ++ [SqlCommit] |}).

(** [conn.close()]: whatever was not committed is gone. *)
Definition close : Sql unit :=
  fun c => (inr tt, {| durable := durable c; pending := durable c;
                       executed := executed c; log := log c ++ [SqlClose] |}).

(** [INSERT INTO conversations (user_id, model_name, domain, title)];
    returns [lastrowid]. *)
Definition insert_conversation (env : Env) (user_id : Z)
    (model_name domain title : option string) : Sql Z :=
  model_name ← not_null "conversations.model_name" model_name;
  domain ← not_null "conversations.domain" domain;
  now ← default_timestamp env;
  rowid ← read_pending (fun db => seq_conversations db + 1);
  let row := {| c_id := rowid; c_user_id := user_id; c_model_name := model_name;
                c_domain := domain; c_title := title; c_created_at := now |} in
  update_pending (fun db =>
    {| conversations := conversations db ++ [row];
       messages := messages db;
       uploaded_files := uploaded_files db;
       seq_conversations := rowid;
       seq_messages := seq_messages db;
       seq_uploaded_files := seq_uploaded_files db |});;
  emit (SqlInsertConversation row);;
  mret rowid.

(** [INSERT INTO messages (conversation_id, user_id, role, content,
    input_type)].  Foreign keys are declared but not enforced: the
    connection never turns the pragma on. *)
Definition insert_message (env : Env) (conversation_id user_id : Z)
    (role : string) (content : option string) (input_type : string) : Sql Z :=
  content ← not_null "messages.content" content;
  now ← default_timestamp env;
  rowid ← read_pending (fun db => seq_messages db + 1);
  let row := {| m_id := rowid; m_conversation_id := conversation_id;
                m_user_id := user_id; m_role := role; m_content := content;
                m_input_type := Some input_type; m_file_path := None;
                m_created_at := now |} in
  update_pending (fun db =>
    {| conversations := conversations db;
       messages := messages db ++ [row];
       uploaded_files := uploaded_files db;
       seq_conversations := seq_conversations db;
       seq_messages := rowid;
       seq_uploaded_files := seq_uploaded_files db |});;
  emit (SqlInsertMessage row);;
  mret rowid.

(** [INSERT INTO uploaded_files (user_id, conversation_id, filename,
    file_path, file_type)] *)
Definition insert_uploaded_file (env : Env) (user_id : Z)
    (conversation_id : option string) (filename file_path file_type : string)
    : Sql Z :=
  now ← default_timestamp env;
  rowid ← read_pending (fun db => seq_uploaded_files db + 1);
  let row := {| f_id := rowid; f_user_id := user_id;
                f_conversation_id := conversation_id; f_filename := filename;
                f_file_path := file_path; f_file_type := file_type;
                f_uploaded_at := now |} in
  update_pending (fun db =>
    {| conversations := conversations db;
       messages := messages db;
       uploaded_files := uploaded_files db ++ [row];
       seq_conversations := seq_conversations db;
       seq_messages := seq_messages db;
       seq_uploaded_files := rowid |});;
  emit (SqlInsertUploadedFile row);;
  mret rowid.

(** What a request leaves behind. *)
Record Outcome := {
  response : Response;
  db_after : Database;
  trace : list Event
}.

(** Run a view body on a fresh connection.  An exception that escapes the
    view is answered by Flask; the connection it leaves open is dropped
    with its transaction. *)
Definition run_view (db : Database) (body : Sql Response) : Outcome :=
  match body (connect db) with
  | (inr r, c) => {| response := r; db_after := durable c; trace := log c |}
  | (inl e, c) => {| response := Unhandled e; db_after := durable c; trace := log c |}
  end.

Definition login_redirect : Response :=
  Redirect "login" "Please login to access this page.".

(** ** The chat page route *)

(** [chat(domain, model_name)] behind [login_required]. *)
Definition chat (session : Session) (domain model_name : string) : Response :=
  match session with
  | None => login_redirect
  | Some _ =>
      match MODELS !! domain with
      | None => Redirect "select_domain" "Invalid domain selected."
      | Some domain_info =>
          let model_name := PyStr.replace "_" "/" model_name in
          RenderChat domain model_name domain_info
      end
  end.

(** Modelled from the spec: the URL encoding of a model identifier used by
    the model-selection page (a template, not under the sources), every
    slash replaced by an underscore. *)
Definition url_encode_model (model_name : string) : string :=
  PyStr.replace "/" "_" model_name.

(** ** One chat turn: [api_chat] *)

(** [user_message[:50] + '...' if len(user_message) > 50 else user_message] *)
Definition title (user_message : string) : string :=
  if (50 <? PyStr.len user_message)%Z
  then PyStr.slice_to 50 user_message +:+ "..."
  else user_message.

(** The same expression on what [data.get('message')] returned: [len]
    raises on [None]. *)
Definition title_of (user_message : option string) : Sql string :=
  match user_message with
  | Some u => mret (title u)
  | None => raise "object of type 'NoneType' has no len()"
  end.

(** [ollama.chat(model=..., messages=[{'role': 'user', 'content': ...}],
    stream=False)] followed by [response['message']['content']]. *)
Definition chat_completion (env : Env) (model content : option string)
    : Sql string :=
  let result := ollama_chat env model content in
  emit (OllamaChat model content result);;
  match result with
  | Generated text => mret text
  | Raised error => raise error
  end.

Definition api_chat_body (env : Env) (user_id : Z) (data : ChatData)
    : Sql Response :=
  let model_name := d_model data in
  let user_message := d_message data in
  let domain := d_domain data in
  let new_conversation : Sql Z :=
    title ← title_of user_message;
    insert_conversation env user_id model_name domain (Some title) in
  conversation_id ←
    match d_conversation_id data with
    | None => new_conversation
    | Some id => if (id =? 0)%Z then new_conversation else mret id
    end;
  insert_message env conversation_id user_id "user" user_message "text";;
  try_finally
    (try_except
       (ai_response ← chat_completion env model_name user_message;
        insert_message env conversation_id user_id "assistant"
                       (Some ai_response) "text";;
        commit;;
        mret (Json 200 [("success", JBool true);
                        ("response", JStr ai_response);
                        ("conversation_id", JInt conversation_id)]))
       (fun e =>
          mret (Json 500 [("success", JBool false); ("error", JStr e)])))
    close.

Definition api_chat (env : Env) (session : Session) (data : ChatData)
    (db : Database) : Outcome :=
  match session with
  | None => {| response := login_redirect; db_after := db; trace := [] |}
  | Some user_id => run_view db (api_chat_body env user_id data)
  end.

(** ** Uploads: [allowed_file] and [upload_file] *)

Definition MAX_CONTENT_LENGTH : Z := 16 * 1024 * 1024.

Definition UPLOAD_FOLDER : string := "uploads".

Definition ALLOWED_EXTENSIONS : gset string :=
  list_to_set ["txt"; "pdf"; "png"; "jpg"; "jpeg"; "gif"; "csv"; "py"; "js";
               "html"; "css"; "doc"; "docx"].

(** [filename.rsplit('.', 1)[1].lower()]; the index raises when the list
    has one element. *)
Definition extension (filename : string) : option string :=
  PyStr.lower <$> (PyStr.rsplit1 "." filename !! 1%nat).

Definition allowed_file (filename : string) : bool :=
  PyStr.contains "." filename &&
  match extension filename with
  | Some ext => bool_decide (ext ∈ ALLOWED_EXTENSIONS)
  | None => false
  end.

(** [os.path.join(folder, name)] for a relative [name]. *)
Definition path_join (folder name : string) : string :=
  folder +:+ "/" +:+ name.

Record UploadOutcome := {
  u_response : Response;
  u_db_after : Database;
  u_blobs_after : gmap string string;
  u_trace : list Event
}.

Definition upload_rejected (r : Response) (db : Database)
    (blobs : gmap string string) : UploadOutcome :=
  {| u_response := r; u_db_after := db; u_blobs_after := blobs; u_trace := [] |}.

Definition upload_file (env : Env) (session : Session) (request : UploadRequest)
    (db : Database) (blobs : gmap string string) : UploadOutcome :=
  match session with
  | None => upload_rejected login_redirect db blobs
  | Some user_id =>
      (* reading [request.files] enforces MAX_CONTENT_LENGTH *)
      if (MAX_CONTENT_LENGTH <? content_length request)%Z
      then upload_rejected (Abort 413) db blobs
      else
        match files_file request with
        | None =>
            upload_rejected
              (Json 400 [("success", JBool false);
                         ("error", JStr "No file provided")]) db blobs
        | Some file =>
            let conversation_id := form_conversation_id request in
            if String.eqb (filename file) ""
            then upload_rejected
                   (Json 400 [("success", JBool false);
                              ("error", JStr "No file selected")]) db blobs
            else if negb (String.eqb (filename file) "")
                    && allowed_file (filename file)
            then
              let safe := secure_filename env (filename file) in
              let timestamp := strftime_now env in
              let stored := PyStr.of_int user_id +:+ "_" +:+ timestamp
                            +:+ "_" +:+ safe in
              let filepath := path_join UPLOAD_FOLDER stored in
              let blobs := <[filepath := stream file]> blobs in
              let out :=
                run_view db
                  (emit (FileSave filepath);;
                   file_type ←
                     match extension (filename file) with
                     | Some ext => mret ext
                     | None => raise "list index out of range"
                     end;
                   insert_uploaded_file env user_id conversation_id
                     (filename file) filepath file_type;;
                   commit;;
                   close;;
                   mret (Json 200 [("success", JBool true);
                                   ("filepath", JStr filepath);
                                   ("filename", JStr stored)])) in
              {| u_response := response out; u_db_after := db_after out;
                 u_blobs_after := blobs; u_trace := trace out |}
            else upload_rejected
                   (Json 400 [("success", JBool false);
                              ("error", JStr "Invalid file type")]) db blobs
        end
  end.

(** ** History and retrieval *)

(** The rows [c LEFT JOIN m ON c.id = m.conversation_id] yields for one
    conversation: one per matching message, or a single row with the
    message columns NULL. *)
Definition joined_rows (ms : list Message) (c : Conversation)
    : list (Conversation * option Message) :=
  match List.filter (fun m => (c_id c =? m_conversation_id m)%Z) ms with
  | [] => [(c, None)]
  | matched => List.map (fun m => (c, Some m)) matched
  end.

Definition left_join (cs : list Conversation) (ms : list Message)
    : list (Conversation * option Message) :=
  flat_map (joined_rows ms) cs.

(** The key of [GROUP BY c.id] on a joined row. *)
Definition joined_id (r : Conversation * option Message) : Z := c_id (fst r).

(** [GROUP BY] on an integer key: one group per distinct key. *)
Definition group_by {A : Type} (key : A -> Z) (rows : list A) : list (list A) :=
  List.map (fun k => List.filter (fun r => (key r =? k)%Z) rows)
           (nodup Z.eq_dec (List.map key rows)).

(** [COUNT(m.id)]: the rows of the group whose [m.id] is not NULL. *)
Definition count_m_id (group : list (Conversation * option Message)) : Z :=
  Z.of_nat (length (List.filter (fun r => bool_decide (is_Some (snd r))) group)).

(** The selected columns of one group; the bare [c.] columns come from a
    row of the group. *)
Definition select_group (group : list (Conversation * option Message))
    : option HistoryRow :=
  match group with
  | [] => None
  | (c, _) :: _ =>
      Some {| h_id := c_id c; h_model_name := c_model_name c;
              h_domain := c_domain c; h_title := c_title c;
              h_created_at := c_created_at c;
              h_message_count := count_m_id group |}
  end.

Definition history (env : Env) (session : Session) (db : Database) : Response :=
  match session with
  | None => login_redirect
  | Some user_id =>
      let joined := left_join (conversations db) (messages db) in
      let owned := List.filter (fun r => (c_user_id (fst r) =? user_id)%Z) joined in
      let groups := group_by joined_id owned in
      let rows := omap select_group groups in
      (* ORDER BY c.created_at DESC *)
      RenderHistory (order_by env _ (fun r => - h_created_at r) rows)
  end.

Definition view_conversation (env : Env) (session : Session)
    (conversation_id : Z) (db : Database) : Response :=
  match session with
  | None => login_redirect
  | Some user_id =>
      match List.find (fun c => (c_id c =? conversation_id)%Z
                                && (c_user_id c =? user_id)%Z)
                      (conversations db) with
      | None => Redirect "history" "Conversation not found."
      | Some conversation =>
          let rows := List.filter
                        (fun m => (m_conversation_id m =? conversation_id)%Z)
                        (messages db) in
          (* ORDER BY created_at ASC *)
          let rows := order_by env _ m_created_at rows in
          RenderConversation conversation
            (List.map (fun m => (m_role m, m_content m, m_created_at m)) rows)
      end
  end.

(** ** An engine that keeps the ORDER BY contract *)

(** Insertion of a row into a sorted list, in front of the first row that
    [before] lets it precede. *)
Fixpoint insert_by {A : Type} (before : Z -> Z -> bool) (key : A -> Z)
    (x : A) (l : list A) : list A :=
  match l with
  | [] => [x]
  | y :: r =>
      if before (key x) (key y) then x :: y :: r
      else y :: insert_by before key x r
  end.

Definition sort_by (before : Z -> Z -> bool) (A : Type) (key : A -> Z)
    (rows : list A) : list A :=
  fold_right (insert_by before key) [] rows.

(** Rows with equal keys stay in scan (rowid) order. *)
Definition order_by_scan : forall A : Type, (A -> Z) -> list A -> list A :=
  sort_by Z.leb.

(** ** Scenarios used by the examples below *)

Definition alice : Z := 1.
Definition bob : Z := 2.

(** A clock that advances one second per statement, and one that stays
    within the same second. *)
Definition ticking (t0 : Z) : nat -> Z := fun n => t0 + Z.of_nat n.

Definition backend (engine : forall A : Type, (A -> Z) -> list A -> list A)
    (clock : nat -> Z) (reply : OllamaResult) : Env :=
  {| current_timestamp := clock;
     ollama_chat := fun _ _ => reply;
     secure_filename := fun s => s;
     strftime_now := "20240101_120000";
     order_by := engine |}.

Definition backend_up : Env :=
  backend order_by_scan (ticking 1700000100) (Generated "Hello!").

Definition backend_down : Env :=
  backend order_by_scan (ticking 1700000100) (Raised "connection refused").

Definition chat_data (conversation_id : option Z) (message : string) : ChatData :=
  {| d_model := Some "Jayasimma/gennai"; d_message := Some message;
     d_conversation_id := conversation_id; d_domain := Some "agriculture" |}.

(** Bob's store after one successful turn of his own. *)
Definition bobs_db : Database :=
  db_after (api_chat (backend order_by_scan (ticking 1700000000)
                              (Generated "After the first monsoon rain."))
                     (Some bob) (chat_data None "When to sow rice?") empty_db).


(** Bob's store with a second conversation of his that has no message. *)
Definition quiet_db : Database :=
  {| conversations :=
       conversations bobs_db ++
       [{| c_id := 2; c_user_id := bob; c_model_name := "Jayasimma/Puzhavan";
           c_domain := "agriculture"; c_title := Some "Soil";
           c_created_at := 1700000050 |}];
     messages := messages bobs_db;
     uploaded_files := [];
     seq_conversations := 2;
     seq_messages := seq_messages bobs_db;
     seq_uploaded_files := 0 |}.

Definition upload_of (name : string) : UploadRequest :=
  {| content_length := 2048;
     files_file := Some {| filename := name; stream := "%PDF-1.4" |};
     form_conversation_id := None |}.

(** ** Reading an outcome *)

(** What the inference backend answered during the request, if it was
    asked at all. *)
Fixpoint inference_of (tr : list Event) : option OllamaResult :=
  match tr with
  | [] => None
  | OllamaChat _ _ result :: _ => Some result
  | _ :: rest => inference_of rest
  end.

(** The events of a request up to its call of the inference backend. *)
Fixpoint before_inference (tr : list Event) : list Event :=
  match tr with
  | [] => []
  | OllamaChat _ _ _ :: _ => []
  | e :: rest => e :: before_inference rest
  end.

Definition with_role (role : string) (ms : list Message) : list Message :=
  List.filter (fun m => String.eqb (m_role m) role) ms.

Definition in_conversation (conversation_id : Z) (ms : list Message)
    : list Message :=
  List.filter (fun m => (m_conversation_id m =? conversation_id)%Z) ms.

Definition owned_by (user_id : Z) (cs : list Conversation) : list Conversation :=
  List.filter (fun c => (c_user_id c =? user_id)%Z) cs.

(** The primary key of [conversations]: ids are unique and none exceeds
    the AUTOINCREMENT counter. *)
Definition conversation_ids_ok (db : Database) : Prop :=
  List.NoDup (List.map c_id (conversations db)) /\
  Forall (fun c => c_id c <= seq_conversations db) (conversations db).


(** A conversation with the number of messages that reference it. *)
Definition history_row (ms : list Message) (c : Conversation) : HistoryRow :=
  {| h_id := c_id c; h_model_name := c_model_name c; h_domain := c_domain c;
     h_title := c_title c; h_created_at := c_created_at c;
     h_message_count := Z.of_nat (length (in_conversation (c_id c) ms)) |}.

(** ** Pages of the form views *)

(** What the views outside the chat API answer: a rendered template or a
    redirect, each with the message flashed on the way, a 400 for a form
    key that is missing, or the exception that escaped the view. *)
Inductive Page :=
  | Rendered (template : string) (flashed : option string)
  | RenderedDomains (domains : gmap string DomainInfo)
  | RenderedModels (domain : string) (domain_info : DomainInfo)
  | Redirected (endpoint : string) (flashed : string)
  | BadRequest
  | ServerError (exception : string).

Inductive Method := GET | POST.

Definition login_page : Page :=
  Redirected "login" "Please login to access this page.".

(** [select_domain()] behind [login_required]. *)
Definition select_domain (session : Session) : Page :=
  match session with
  | None => login_page
  | Some _ => RenderedDomains MODELS
  end.

(** [select_model(domain)] behind [login_required]. *)
Definition select_model (session : Session) (domain : string) : Page :=
  match session with
  | None => login_page
  | Some _ =>
      match MODELS !! domain with
      | None => Redirected "select_domain" "Invalid domain selected."
      | Some domain_info => RenderedModels domain domain_info
      end
  end.

(** ** Accounts: [register], [login], [logout] *)

Record User := {
  u_id : Z;
  u_username : string;
  u_email : string;
  u_password : string;
  u_created_at : Z
}.

(** The [users] table with its AUTOINCREMENT counter.  No view modelled
    above reads it, so it is kept beside [Database]. *)
Record UserTable := {
  users : list User;
  seq_users : Z
}.

(** werkzeug's password functions; [generate_password_hash] is the one
    call of the request, with the salt it draws. *)
Record Hasher := {
  generate_password_hash : string -> string;
  check_password_hash : string -> string -> bool
}.

(** The session cookie: the two keys [login] sets. *)
Record SessionState := {
  s_user_id : option Z;
  s_username : option string
}.

(** What [login_required] looks at. *)
Definition session_of (s : SessionState) : Session := s_user_id s.

Definition anonymous : SessionState :=
  {| s_user_id := None; s_username := None |}.

Record RegisterForm := {
  rf_username : option string;
  rf_email : option string;
  rf_password : option string
}.

(** The two UNIQUE constraints of [users]. *)
Definition violates_unique (username email : string) (us : list User) : bool :=
  existsb (fun u => String.eqb (u_username u) username
                    || String.eqb (u_email u) email) us.

(** [register()]: a missing form key is a 400 before the connection is
    opened; a UNIQUE violation is caught, flashed, and the form is
    rendered again with nothing stored. *)
Definition register (hasher : Hasher) (now : Z) (method : Method)
    (form : RegisterForm) (table : UserTable) : Page * UserTable :=
  match method with
  | GET => (Rendered "register.html" None, table)
  | POST =>
      match rf_username form, rf_email form, rf_password form with
      | Some username, Some email, Some password =>
          let hashed_password := generate_password_hash hasher password in
          if violates_unique username email (users table)
          then (Rendered "register.html"
                         (Some "Username or email already exists."), table)
          else
            let rowid := seq_users table + 1 in
            (Redirected "login" "Registration successful! Please login.",
             {| users := users table ++
                         [{| u_id := rowid; u_username := username;
                             u_email := email; u_password := hashed_password;
                             u_created_at := now |}];
                seq_users := rowid |})
      | _, _, _ => (BadRequest, table)
      end
  end.

Record LoginForm := {
  lf_username : option string;
  lf_password : option string
}.

(** [SELECT * FROM users WHERE username = ?] then [fetchone()]. *)
Definition fetch_user (username : string) (table : UserTable) : option User :=
  List.find (fun u => String.eqb (u_username u) username) (users table).

(** [login()]: on success the two session keys are set; otherwise the
    session is left as it was. *)
Definition login (hasher : Hasher) (method : Method) (form : LoginForm)
    (session : SessionState) (table : UserTable) : Page * SessionState :=
  match method with
  | GET => (Rendered "login.html" None, session)
  | POST =>
      match lf_username form, lf_password form with
      | Some username, Some password =>
          match fetch_user username table with
          | Some user =>
              if check_password_hash hasher (u_password user) password
              then (Redirected "select_domain" "Login successful!",
                    {| s_user_id := Some (u_id user);
                       s_username := Some (u_username user) |})
              else (Rendered "login.html" (Some "Invalid credentials."), session)
          | None => (Rendered "login.html" (Some "Invalid credentials."), session)
          end
      | _, _ => (BadRequest, session)
      end
  end.

(** [logout()]: [session.clear()]. *)
Definition logout (session : SessionState) : Page * SessionState :=
  (Redirected "home" "You have been logged out.", anonymous).

(** ** The contact form *)

Record ContactSubmission := {
  cs_id : Z;
  cs_name : string;
  cs_email : string;
  cs_subject : string;
  cs_message : string;
  cs_submitted_at : Z
}.

Record ContactTable := {
  submissions : list ContactSubmission;
  seq_contact : Z
}.

(** The form as [request.form.get] reads it. *)
Record ContactForm := {
  cf_name : option string;
  cf_email : option string;
  cf_subject : option string;
  cf_message : option string
}.

(** [contact()]: the four columns are NOT NULL and the INSERT is not
    guarded, so a missing field escapes the view as an IntegrityError. *)
Definition contact (now : Z) (method : Method) (form : ContactForm)
    (table : ContactTable) : Page * ContactTable :=
  match method with
  | GET => (Rendered "contact.html" None, table)
  | POST =>
      match cf_name form, cf_email form, cf_subject form, cf_message form with
      | Some name, Some email, Some subject, Some message =>
          let rowid := seq_contact table + 1 in
          (Redirected "contact"
             "Thank you for your message! We will get back to you soon.",
           {| submissions := submissions table ++
                             [{| cs_id := rowid; cs_name := name;
                                 cs_email := email; cs_subject := subject;
                                 cs_message := message;
                                 cs_submitted_at := now |}];
              seq_contact := rowid |})
      | None, _, _, _ =>
          (ServerError "NOT NULL constraint failed: contact_submissions.name", table)
      | _, None, _, _ =>
          (ServerError "NOT NULL constraint failed: contact_submissions.email", table)
      | _, _, None, _ =>
          (ServerError "NOT NULL constraint failed: contact_submissions.subject", table)
      | _, _, _, None =>
          (ServerError "NOT NULL constraint failed: contact_submissions.message", table)
      end
  end.

(** ** The setup script *)

Module Setup.

(** The machine the script runs on, as far as the script can tell: the
    interpreter's version and path, whether [os.makedirs] returns for a
    directory, whether a shell command run with [check=True] returns,
    whether a module imports, and the line typed at the prompt.  What
    the script prints is left out. *)
Record Host := {
  version_info : Z * Z;
  executable : string;
  makedirs : string -> bool;
  run : string -> bool;
  importable : string -> bool;
  input : string
}.

Definition check_python (h : Host) : bool :=
  let (major, minor) := version_info h in
  if (major <? 3)%Z || ((major =? 3)%Z && (minor <? 8)%Z) then false else true.

Definition directories : list string :=
  ["uploads"; "static"; "static/images"; "static/images/icons"; "templates"].

(** The loop of [create_directories]: the first directory that cannot be
    made ends it.  Returns the result and the directories it tried. *)
Fixpoint create_each (h : Host) (ds : list string) : bool * list string :=
  match ds with
  | [] => (true, [])
  | d :: rest =>
      if makedirs h d
      then let (ok, tried) := create_each h rest in (ok, d :: tried)
      else (false, [d])
  end.

Definition create_directories (h : Host) : bool * list string :=
  create_each h directories.

(** [run_command(command, description)] *)
Definition run_command (h : Host) (command : string) : bool := run h command.

Definition packages : list string :=
  ["Flask==3.0.0"; "Werkzeug==3.0.1"; "ollama"; "Pillow"; "python-dotenv"].

Definition quote : string := String "034"%char EmptyString.

(** The f-string that builds one pip command. *)
Definition pip_install (h : Host) (what : string) : string :=
  quote +:+ executable h +:+ quote +:+ " -m pip install " +:+ what.

(** The loop of [install_packages]; returns [all_success] and the
    commands it ran. *)
Fixpoint install_each (h : Host) (ps : list string) (all_success : bool)
    : bool * list string :=
  match ps with
  | [] => (all_success, [])
  | package :: rest =>
      let command := pip_install h package in
      let all_success := if run_command h command then all_success else false in
      let (result, ran) := install_each h rest all_success in
      (result, command :: ran)
  end.

Definition install_packages (h : Host) : bool * list string :=
  let upgrade := pip_install h "--upgrade pip" in
  let upgraded := run_command h upgrade in
  let (result, ran) := install_each h packages true in
  (result, upgrade :: ran).

Definition required_modules : list (string * string) :=
  [("flask", "Flask"); ("werkzeug", "Werkzeug"); ("ollama", "Ollama");
   ("PIL", "Pillow"); ("dotenv", "python-dotenv")].

Fixpoint verify_each (h : Host) (ms : list (string * string))
    (all_installed : bool) : bool :=
  match ms with
  | [] => all_installed
  | (module_name, _) :: rest =>
      verify_each h rest (if importable h module_name then all_installed else false)
  end.

Definition verify_installation (h : Host) : bool :=
  verify_each h required_modules true.

Inductive Step :=
  | CheckPython
  | CreateDirectories
  | InstallPackages
  | AskContinue
  | VerifyInstallation
  | CreateEnvFile
  | InitializeDatabase
  | CheckOllama
  | PrintNextSteps.

(** [main()]: the steps it reaches and the exit status, 1 for
    [sys.exit(1)] and 0 when it runs to its end.  The last four steps
    catch their own exceptions and [main] ignores what they return. *)
Definition main (h : Host) : list Step * Z :=
  if negb (check_python h) then ([CheckPython], 1)
  else if negb (fst (create_directories h))
  then ([CheckPython; CreateDirectories], 1)
  else
    let installed := fst (install_packages h) in
    let asked := if installed then [] else [AskContinue] in
    if negb installed && negb (String.eqb (PyStr.lower (input h)) "y")
    then ([CheckPython; CreateDirectories; InstallPackages; AskContinue], 1)
    else if negb (verify_installation h)
    then (([CheckPython; CreateDirectories; InstallPackages] ++ asked
           ++ [VerifyInstallation])%list, 1)
    else (([CheckPython; CreateDirectories; InstallPackages] ++ asked
           ++ [VerifyInstallation; CreateEnvFile; InitializeDatabase;
               CheckOllama; PrintNextSteps])%list, 0).

End Setup.

(** ** More readings of a store *)

(** The primary key of [messages]. *)
Definition message_ids_ok (db : Database) : Prop :=
  List.NoDup (List.map m_id (messages db)) /\
  Forall (fun m => m_id m <= seq_messages db) (messages db).

(** Every recorded file type is on the allow-list. *)
Definition file_types_ok (db : Database) : Prop :=
  Forall (fun f => f_file_type f ∈ ALLOWED_EXTENSIONS) (uploaded_files db).

(** The UNIQUE constraints and the primary key of [users]. *)
Definition users_ok (table : UserTable) : Prop :=
  List.NoDup (List.map u_username (users table)) /\
  List.NoDup (List.map u_email (users table)) /\
  List.NoDup (List.map u_id (users table)) /\
  Forall (fun u => u_id u <= seq_users table) (users table).

(** ** Scenarios for the account views *)

Definition demo_hasher : Hasher :=
  {| generate_password_hash := fun p => "pbkdf2:" +:+ p;
     check_password_hash := fun h p => String.eqb h ("pbkdf2:" +:+ p) |}.

Definition no_users : UserTable := {| users := []; seq_users := 0 |}.

Definition register_form (username email password : string) : RegisterForm :=
  {| rf_username := Some username; rf_email := Some email;
     rf_password := Some password |}.

Definition login_form (username password : string) : LoginForm :=
  {| lf_username := Some username; lf_password := Some password |}.

(** The table after one registration. *)
Definition one_user : UserTable :=
  snd (register demo_hasher 1700000000 POST
         (register_form "asha" "asha@example.org" "s3cret") no_users).

Definition demo_host : Setup.Host :=
  {| Setup.version_info := (3, 11);
     Setup.executable := "/usr/bin/python3";
     Setup.makedirs := fun _ => true;
     Setup.run := fun c =>
       negb (String.eqb c (Setup.quote +:+ "/usr/bin/python3" +:+ Setup.quote
                           +:+ " -m pip install Pillow"));
     Setup.importable := fun _ => true;
     Setup.input := "Y" |}.

(** ** Ties, integer range and a failing store *)



(** The [messages] table lists its rows by increasing rowid. *)
Definition messages_in_rowid_order (db : Database) : Prop :=
  StronglySorted (fun a b => m_id a < m_id b) (messages db).

(** The integers sqlite3 can bind to a statement: 64 bits, signed. *)
Definition sqlite_integer (n : Z) : bool :=
  (- 2 ^ 63 <=? n)%Z && (n <? 2 ^ 63)%Z.

Definition overflow_error : string :=
  "Python int too large to convert to SQLite INTEGER".

(** [api_chat] on the JSON as it arrives.  A conversation id is any
    integer; one that does not fit 64 bits makes the INSERT of the user
    message raise when it binds its parameters, before the [try] and
    before any statement has run.  An id of 0 takes the other branch and
    is never bound. *)
Definition api_chat_json (env : Env) (session : Session) (data : ChatData)
    (db : Database) : Outcome :=
  match session, d_conversation_id data with
  | Some _, Some id =>
      if sqlite_integer id then api_chat env session data db
      else {| response := Unhandled overflow_error; db_after := db; trace := [] |}
  | _, _ => api_chat env session data db
  end.


(** The model and the text with which a request gets as far as the
    inference backend, if it does: it needs a user, a message text, and
    either a conversation id that binds or a model and a domain for the
    new conversation. *)
Definition reaches_backend (session : Session) (data : ChatData)
    : option (option string * string) :=
  match session, d_message data with
  | Some _, Some u =>
      let for_new :=
        match d_model data, d_domain data with
        | Some _, Some _ => Some (d_model data, u)
        | _, _ => None
        end in
      match d_conversation_id data with
      | None => for_new
      | Some id =>
          if (id =? 0)%Z then for_new
          else if sqlite_integer id then Some (d_model data, u) else None
      end
  | _, _ => None
  end.

(** [upload_file] on a store that may refuse to work: [store_error] is
    the exception that [sqlite3.connect], the INSERT or [commit] raises,
    if one does.  The file is saved before the connection is opened and
    nothing takes it back. *)
Definition upload_file_on (store_error : option string) (env : Env)
    (session : Session) (request : UploadRequest) (db : Database)
    (blobs : gmap string string) : UploadOutcome :=
  match store_error with
  | None => upload_file env session request db blobs
  | Some e =>
      match session with
      | None => upload_rejected login_redirect db blobs
      | Some user_id =>
          if (MAX_CONTENT_LENGTH <? content_length request)%Z
          then upload_rejected (Abort 413) db blobs
          else
            match files_file request with
            | None =>
                upload_rejected
                  (Json 400 [("success", JBool false);
                             ("error", JStr "No file provided")]) db blobs
            | Some file =>
                if String.eqb (filename file) ""
                then upload_rejected
                       (Json 400 [("success", JBool false);
                                  ("error", JStr "No file selected")]) db blobs
                else if negb (String.eqb (filename file) "")
                        && allowed_file (filename file)
                then
                  let safe := secure_filename env (filename file) in
                  let timestamp := strftime_now env in
                  let stored := PyStr.of_int user_id +:+ "_" +:+ timestamp
                                +:+ "_" +:+ safe in
                  let filepath := path_join UPLOAD_FOLDER stored in
                  {| u_response := Unhandled e; u_db_after := db;
                     u_blobs_after := <[filepath := stream file]> blobs;
                     u_trace := [FileSave filepath] |}
                else upload_rejected
                       (Json 400 [("success", JBool false);
                                  ("error", JStr "Invalid file type")]) db blobs
            end
      end
  end.

(** * Properties *)

(** ** Strings *)

Lemma append_cons (c : ascii) (a b : string) :
  String c a +:+ b = String c (a +:+ b).
Proof. reflexivity. Qed.

Lemma append_nil (b : string) : "" +:+ b = b.
Proof. reflexivity. Qed.

Lemma replace_removes (old new : ascii) (s : string) :
  old <> new -> PyStr.contains old (PyStr.replace old new s) = false.
Proof.
  intros Hne. induction s as [|c r IH]; simpl; [reflexivity|].
  rewrite IH, orb_false_r.
  destruct (Ascii.eqb_spec c old) as [->|Hc].
  - apply Ascii.eqb_neq. intros Heq. apply Hne. symmetry. exact Heq.
  - apply Ascii.eqb_neq. exact Hc.
Qed.

Lemma replace_absent (old new : ascii) (s : string) :
  PyStr.contains old s = false -> PyStr.replace old new s = s.
Proof.
  induction s as [|c r IH]; simpl; [reflexivity|].
  intros H. apply orb_false_iff in H as [Hc Hr].
  rewrite Hc, IH by exact Hr. reflexivity.
Qed.

Lemma slice_to_length (n : nat) (s : string) :
  String.length (PyStr.slice_to n s) = Nat.min n (String.length s).
Proof.
  unfold PyStr.slice_to. revert s.
  induction n as [|n IH]; intros [|c r]; simpl; try reflexivity.
  rewrite IH. reflexivity.
Qed.

Lemma slice_to_prefix (n : nat) (s : string) :
  exists rest, s = PyStr.slice_to n s +:+ rest.
Proof.
  unfold PyStr.slice_to. revert s.
  induction n as [|n IH]; intros [|c r]; simpl.
  - exists "". reflexivity.
  - exists (String c r). reflexivity.
  - exists "". reflexivity.
  - destruct (IH r) as [rest Hrest]. exists rest.
    rewrite append_cons. f_equal. exact Hrest.
Qed.

(** [rsplit1] cuts at the last separator. *)
Lemma rsplit1_absent (sep : ascii) (s : string) :
  PyStr.contains sep s = false -> PyStr.rsplit1 sep s = [s].
Proof.
  induction s as [|c r IH]; simpl; [reflexivity|].
  intros H. apply orb_false_iff in H as [Hc Hr].
  rewrite IH, Hc by exact Hr. reflexivity.
Qed.

Lemma rsplit1_last (sep : ascii) (stem ext : string) :
  PyStr.contains sep ext = false ->
  PyStr.rsplit1 sep (stem +:+ String sep ext) = [stem; ext].
Proof.
  intros Hext. induction stem as [|c r IH].
  - rewrite append_nil. simpl.
    rewrite (rsplit1_absent _ _ Hext), Ascii.eqb_refl. reflexivity.
  - rewrite append_cons. simpl. rewrite IH. reflexivity.
Qed.

Lemma contains_append (c : ascii) (a b : string) :
  PyStr.contains c (a +:+ b) = PyStr.contains c a || PyStr.contains c b.
Proof.
  induction a as [|d r IH]; [reflexivity|].
  rewrite append_cons. simpl. rewrite IH, orb_assoc. reflexivity.
Qed.

(** ** Title derivation *)

Lemma title_short (u : string) : PyStr.len u <= 50 -> title u = u.
Proof.
  intros H. unfold title.
  destruct (Z.ltb_spec 50 (PyStr.len u)); [lia|reflexivity].
Qed.

Lemma title_long (u : string) :
  50 < PyStr.len u ->
  title u = PyStr.slice_to 50 u +:+ "..." /\
  PyStr.len (PyStr.slice_to 50 u) = 50 /\
  exists rest, u = PyStr.slice_to 50 u +:+ rest.
Proof.
  intros H. unfold title.
  destruct (Z.ltb_spec 50 (PyStr.len u)); [|lia].
  split; [reflexivity|]. split; [|apply slice_to_prefix].
  unfold PyStr.len in *. rewrite slice_to_length. lia.
Qed.

(** ** The chat page route *)

(** C10. The chat route decodes the model segment by turning every
    underscore into a slash, so for a model identifier that contains an
    underscore the page is rendered with an identifier different from the
    one that was encoded: decoding is not a left inverse of the
    slash-to-underscore encoding. *)
Theorem chat_decode_not_left_inverse :
  forall (user_id : Z) (domain model_name : string) (domain_info : DomainInfo),
    MODELS !! domain = Some domain_info ->
    In model_name (models domain_info) ->
    PyStr.contains "_" model_name = true ->
    exists decoded,
      chat (Some user_id) domain (url_encode_model model_name)
        = RenderChat domain decoded domain_info /\
      decoded = PyStr.replace "_" "/" (url_encode_model model_name) /\
      PyStr.contains "_" decoded = false /\
      decoded <> model_name.
Proof.
  intros user_id domain model_name domain_info Hdom _ Hus.
  exists (PyStr.replace "_" "/" (url_encode_model model_name)).
  assert (Hno : PyStr.contains "_"
                  (PyStr.replace "_" "/" (url_encode_model model_name)) = false)
    by (apply replace_removes; discriminate).
  repeat split.
  - unfold chat. rewrite Hdom. reflexivity.
  - exact Hno.
  - intros Heq. rewrite Heq in Hno. congruence.
Qed.

Lemma chat_decode_not_left_inverse_witness :
  exists decoded,
    chat (Some alice) "coding" (url_encode_model "Jayasimma/codemium_ai")
      = RenderChat "coding" decoded
          {| name := "Coding";
             models := ["Jayasimma/codemium_ai"; "Jayasimma/creaton-ai"];
             description :=
               "Programming help, code review, and software development" |} /\
    decoded = PyStr.replace "_" "/" (url_encode_model "Jayasimma/codemium_ai") /\
    PyStr.contains "_" decoded = false /\
    decoded <> "Jayasimma/codemium_ai".
Proof.
  apply (chat_decode_not_left_inverse alice "coding" "Jayasimma/codemium_ai").
  - vm_compute. reflexivity.
  - simpl. left. reflexivity.
  - vm_compute. reflexivity.
Defined.

(** Identifiers without an underscore do survive the round trip. *)
Lemma chat_decode_roundtrip (model_name : string) :
  PyStr.contains "_" model_name = false ->
  PyStr.replace "_" "/" (url_encode_model model_name) = model_name.
Proof.
  intros H. unfold url_encode_model.
  induction model_name as [|c r IH]; simpl in *; [reflexivity|].
  apply orb_false_iff in H as [Hc Hr]. rewrite IH by exact Hr.
  destruct (Ascii.eqb_spec c "/") as [->|Hs]; [reflexivity|].
  rewrite Hc. reflexivity.
Qed.

(** ** One chat turn *)

Ltac run_sql :=
  unfold api_chat, run_view, api_chat_body, title_of, insert_conversation,
    insert_message, insert_uploaded_file, chat_completion, try_finally,
    try_except, not_null, default_timestamp, read_pending, update_pending,
    emit, commit, close, connect, raise, mbind, sql_bind, mret, sql_ret;
  simpl.

(** Every request ends in one of three ways, told apart by what the
    inference backend answered: it was never asked, it raised, or it
    generated a reply. *)
Lemma api_chat_by_inference (env : Env) (session : Session) (data : ChatData)
    (db : Database) :
  let out := api_chat env session data db in
  match inference_of (trace out) with
  | None =>
      db_after out = db /\
      (response out = login_redirect \/ exists e, response out = Unhandled e)
  | Some (Raised error) =>
      exists user_id u user_row,
        session = Some user_id /\ d_message data = Some u /\
        In (SqlInsertMessage user_row) (before_inference (trace out)) /\
        m_role user_row = "user" /\ m_content user_row = u /\
        m_user_id user_row = user_id /\
        db_after out = db /\
        response out = Json 500 [("success", JBool false); ("error", JStr error)]
  | Some (Generated text) =>
      exists user_id u conversation_id user_row reply_row,
        session = Some user_id /\ d_message data = Some u /\
        messages (db_after out) = (messages db ++ [user_row; reply_row])%list /\
        response out = Json 200 [("success", JBool true);
                                 ("response", JStr text);
                                 ("conversation_id", JInt conversation_id)] /\
        In (SqlInsertMessage user_row) (before_inference (trace out)) /\
        m_role user_row = "user" /\ m_content user_row = u /\
        m_user_id user_row = user_id /\
        m_conversation_id user_row = conversation_id /\
        m_role reply_row = "assistant" /\ m_content reply_row = text /\
        m_user_id reply_row = user_id /\
        m_conversation_id reply_row = conversation_id
  end.
Proof.
  destruct session as [user_id|]; [|simpl; auto].
  destruct data as [model message conversation_id domain].
  run_sql.
  destruct conversation_id as [id|]; [destruct (Z.eqb_spec id 0)|];
    destruct message as [u|]; simpl; eauto;
    try (destruct model as [m|]; simpl; eauto;
         destruct domain as [d|]; simpl; eauto);
    match goal with
    | |- context [ollama_chat ?e ?m ?c] => destruct (ollama_chat e m c); simpl
    end;
    try rewrite <- app_assoc; simpl;
    repeat eexists; simpl; eauto 10.
Qed.

(** The primary key of [conversations] survives every request. *)
Lemma api_chat_keeps_ids (env : Env) (session : Session) (data : ChatData)
    (db : Database) :
  conversation_ids_ok db ->
  conversation_ids_ok (db_after (api_chat env session data db)).
Proof.
  intros [Hnd Hle].
  assert (Hnew : forall c,
            c_id c = seq_conversations db + 1 ->
            conversation_ids_ok
              {| conversations := conversations db ++ [c];
                 messages := messages db; uploaded_files := uploaded_files db;
                 seq_conversations := seq_conversations db + 1;
                 seq_messages := seq_messages db;
                 seq_uploaded_files := seq_uploaded_files db |}).
  { intros c Hc. split; simpl.
    - rewrite List.map_app. simpl.
      apply List.NoDup_app; [exact Hnd|repeat constructor; intros []|].
      intros x Hx [<-|[]].
      apply List.in_map_iff in Hx as (c' & Heq & Hc').
      rewrite List.Forall_forall in Hle. specialize (Hle c' Hc'). lia.
    - apply List.Forall_app. split.
      + eapply List.Forall_impl; [|exact Hle]. simpl. intros; lia.
      + constructor; [lia|constructor]. }
  destruct session as [user_id|]; [|split; assumption].
  destruct data as [model message conversation_id domain].
  run_sql.
  destruct conversation_id as [id|]; [destruct (Z.eqb_spec id 0)|];
    destruct message as [u|]; simpl; try (split; assumption);
    try (destruct model as [m|]; simpl; try (split; assumption);
         destruct domain as [d|]; simpl; try (split; assumption));
    match goal with
    | |- context [ollama_chat ?e ?m ?c] => destruct (ollama_chat e m c); simpl
    end;
    try (split; assumption);
    match goal with
    | |- conversation_ids_ok {| conversations := (_ ++ [?c])%list |} =>
        destruct (Hnew c eq_refl) as [H1 H2]; split; simpl in *; assumption
    end.
Qed.


(** C1. [api_chat] with a conversation id does not load the conversation
    or compare its owner with the caller.  Alice, naming the id of Bob's
    conversation, gets a success response, her message and the reply are
    committed under Bob's conversation, and Bob's transcript shows them. *)
Theorem api_chat_appends_to_foreign_conversation :
  let out := api_chat backend_up (Some alice) (chat_data (Some 1) "hi") bobs_db in
  alice <> bob /\
  List.map (fun c => (c_id c, c_user_id c)) (conversations bobs_db) = [(1, bob)] /\
  response out = Json 200 [("success", JBool true); ("response", JStr "Hello!");
                           ("conversation_id", JInt 1)] /\
  List.map (fun m => (m_user_id m, m_role m, m_content m))
           (in_conversation 1 (messages (db_after out)))
  = [(bob, "user", "When to sow rice?");
     (bob, "assistant", "After the first monsoon rain.");
     (alice, "user", "hi");
     (alice, "assistant", "Hello!")] /\
  exists conversation,
    view_conversation backend_up (Some bob) 1 (db_after out)
    = RenderConversation conversation
        [("user", "When to sow rice?", 1700000001);
         ("assistant", "After the first monsoon rain.", 1700000002);
         ("user", "hi", 1700000100);
         ("assistant", "Hello!", 1700000101)].
Proof.
  repeat split; try (vm_compute; reflexivity); try discriminate.
  eexists. vm_compute. reflexivity.
Qed.

(** C2, as stated, fails: the backend is down, the user message was
    inserted before the backend was asked, and after the request the
    store holds no message. *)
Lemma user_message_lost_on_inference_failure :
  let out := api_chat backend_down (Some alice) (chat_data None "hi") empty_db in
  inference_of (trace out) = Some (Raised "connection refused") /\
  (exists row, In (SqlInsertMessage row) (before_inference (trace out)) /\
               m_role row = "user" /\ m_content row = "hi") /\
  ~ (exists row, In row (messages (db_after out)) /\ m_content row = "hi").
Proof.
  repeat split.
  - eexists. split; [|split].
    + vm_compute. right. left. reflexivity.
    + reflexivity.
    + reflexivity.
  - intros (row & Hin & _). vm_compute in Hin. exact Hin.
Qed.

(** C2, amended.  Whenever the inference backend is asked, the user-role
    message has been inserted on the connection before; that row is
    committed only together with the reply, after the backend generated
    one; when the backend raises, the connection is closed without a
    commit and the store is what it was before the request. *)
Theorem user_message_inserted_first_committed_on_success :
  forall (env : Env) (session : Session) (data : ChatData) (db : Database),
    let out := api_chat env session data db in
    (forall result, inference_of (trace out) = Some result ->
       exists user_row,
         In (SqlInsertMessage user_row) (before_inference (trace out)) /\
         m_role user_row = "user" /\
         d_message data = Some (m_content user_row)) /\
    (forall error, inference_of (trace out) = Some (Raised error) ->
       db_after out = db) /\
    (forall text, inference_of (trace out) = Some (Generated text) ->
       exists user_row reply_row,
         messages (db_after out) = (messages db ++ [user_row; reply_row])%list /\
         m_role user_row = "user" /\
         d_message data = Some (m_content user_row)).
Proof.
  intros env session data db out.
  pose proof (api_chat_by_inference env session data db) as H.
  fold out in H. simpl in H.
  destruct (inference_of (trace out)) as [[text|error]|].
  - destruct H as (uid & u & cid & urow & rrow & _ & Hm & Hms & _ & Hin & Hr & Hc & _).
    repeat split.
    + intros _ _. exists urow. rewrite Hc. auto.
    + discriminate.
    + intros _ _. exists urow, rrow. rewrite Hc. auto.
  - destruct H as (uid & u & urow & _ & Hm & Hin & Hr & Hc & _ & Hdb & _).
    repeat split.
    + intros _ _. exists urow. rewrite Hc. auto.
    + intros _ _. exact Hdb.
    + discriminate.
  - repeat split; discriminate.
Qed.

Lemma user_message_inserted_first_committed_on_success_witness :
  let out := api_chat backend_down (Some alice) (chat_data None "hi") empty_db in
  (exists user_row,
      In (SqlInsertMessage user_row) (before_inference (trace out)) /\
      m_role user_row = "user" /\
      d_message (chat_data None "hi") = Some (m_content user_row)) /\
  db_after out = empty_db.
Proof.
  destruct (user_message_inserted_first_committed_on_success
              backend_down (Some alice) (chat_data None "hi") empty_db)
    as (Hfirst & Hraised & _).
  split.
  - apply (Hfirst (Raised "connection refused")). reflexivity.
  - apply (Hraised "connection refused"). reflexivity.
Defined.

(** C3, as stated, fails: the first turn of a new conversation meets a
    backend that is down; the error response has no conversation id, and
    the conversation the request had inserted is not in the store. *)
Lemma error_response_has_no_conversation_id :
  let out := api_chat backend_down (Some alice) (chat_data None "hi") empty_db in
  inference_of (trace out) = Some (Raised "connection refused") /\
  (exists row, In (SqlInsertConversation row) (trace out) /\ c_id row = 1) /\
  exists body,
    response out = Json 500 body /\
    json_get "conversation_id" body = None /\
    conversations (db_after out) = [].
Proof.
  repeat split.
  - eexists. split; [vm_compute; left; reflexivity | reflexivity].
  - eexists. repeat split.
Qed.

(** C3, amended.  When the inference call fails the caller gets status 500
    with the two fields [success] (false) and [error] (the text of the
    exception) and no conversation id, and no conversation was added to
    the store; the conversation id is part of the response when the
    inference call succeeds. *)
Theorem inference_failure_response :
  forall (env : Env) (session : Session) (data : ChatData) (db : Database),
    let out := api_chat env session data db in
    (forall error, inference_of (trace out) = Some (Raised error) ->
       response out = Json 500 [("success", JBool false); ("error", JStr error)] /\
       json_get "conversation_id"
                [("success", JBool false); ("error", JStr error)] = None /\
       conversations (db_after out) = conversations db) /\
    (forall text, inference_of (trace out) = Some (Generated text) ->
       exists body conversation_id,
         response out = Json 200 body /\
         json_get "conversation_id" body = Some (JInt conversation_id)).
Proof.
  intros env session data db out.
  pose proof (api_chat_by_inference env session data db) as H.
  fold out in H. simpl in H.
  destruct (inference_of (trace out)) as [[text|error]|].
  - destruct H as (uid & u & cid & urow & rrow & _ & _ & _ & Hresp & _).
    split; [discriminate|]. intros _ _.
    eexists _, cid. split; [exact Hresp|reflexivity].
  - destruct H as (uid & u & urow & _ & _ & _ & _ & _ & _ & Hdb & Hresp).
    split; [|discriminate]. intros e [= <-].
    rewrite Hdb. repeat split. exact Hresp.
  - split; discriminate.
Qed.

Lemma inference_failure_response_witness :
  let out := api_chat backend_down (Some alice) (chat_data None "hi") empty_db in
  response out = Json 500 [("success", JBool false);
                           ("error", JStr "connection refused")] /\
  json_get "conversation_id"
           [("success", JBool false); ("error", JStr "connection refused")] = None /\
  conversations (db_after out) = conversations empty_db.
Proof.
  apply (inference_failure_response backend_down (Some alice)
           (chat_data None "hi") empty_db).
  reflexivity.
Defined.

(** C4, as stated, fails: an empty message that starts a conversation is
    answered with success, and a conversation row and two message rows are
    in the store afterwards. *)
Lemma empty_message_is_accepted :
  let out := api_chat backend_up (Some alice) (chat_data None "") empty_db in
  response out = Json 200 [("success", JBool true); ("response", JStr "Hello!");
                           ("conversation_id", JInt 1)] /\
  List.map c_title (conversations (db_after out)) = [Some ""] /\
  List.map (fun m => (m_role m, m_content m)) (messages (db_after out))
  = [("user", ""); ("assistant", "Hello!")] /\
  db_after out <> empty_db.
Proof.
  vm_compute. repeat split. discriminate.
Qed.

(** C4, amended.  [api_chat] does not validate the utterance.  An empty
    utterance that starts a conversation is handled like any other text:
    a conversation titled with the empty string and a user message with
    empty content are inserted and the backend is asked; when it
    generates a reply the rows are committed with the reply and the call
    answers success, and when it raises the call answers the inference
    error and nothing is committed. *)
Theorem empty_message_not_validated :
  forall (env : Env) (user_id : Z) (m d : string) (db : Database),
    let out :=
      api_chat env (Some user_id)
        {| d_model := Some m; d_message := Some "";
           d_conversation_id := None; d_domain := Some d |} db in
    let conversation :=
      {| c_id := seq_conversations db + 1; c_user_id := user_id;
         c_model_name := m; c_domain := d; c_title := Some "";
         c_created_at := current_timestamp env 0 |} in
    let user_row :=
      {| m_id := seq_messages db + 1; m_conversation_id := c_id conversation;
         m_user_id := user_id; m_role := "user"; m_content := "";
         m_input_type := Some "text"; m_file_path := None;
         m_created_at := current_timestamp env 1 |} in
    before_inference (trace out)
      = [SqlInsertConversation conversation; SqlInsertMessage user_row] /\
    match ollama_chat env (Some m) (Some "") with
    | Generated text =>
        response out = Json 200 [("success", JBool true); ("response", JStr text);
                                 ("conversation_id", JInt (c_id conversation))] /\
        conversations (db_after out) = (conversations db ++ [conversation])%list /\
        exists reply_row,
          messages (db_after out) = (messages db ++ [user_row; reply_row])%list /\
          m_role reply_row = "assistant" /\ m_content reply_row = text
    | Raised error =>
        response out = Json 500 [("success", JBool false); ("error", JStr error)] /\
        db_after out = db
    end.
Proof.
  intros env user_id m d db. run_sql.
  destruct (ollama_chat env (Some m) (Some "")) as [text|error]; simpl.
  - repeat split. eexists. rewrite <- app_assoc. simpl. repeat split.
  - repeat split.
Qed.

(** C6, as stated, fails: with the backend down, a first turn derives
    the title and inserts the conversation, and after the request the
    store holds no conversation. *)
Lemma conversation_not_kept_on_inference_failure :
  let out := api_chat backend_down (Some alice)
                      (chat_data None "When to sow rice?") empty_db in
  (exists row,
      In (SqlInsertConversation row) (trace out) /\
      c_user_id row = alice /\ c_title row = Some "When to sow rice?") /\
  conversations (db_after out) = [] /\
  ~ (exists row, In row (conversations (db_after out)) /\ c_user_id row = alice).
Proof.
  split; [|split].
  - eexists. split; [vm_compute; left; reflexivity|]. split; reflexivity.
  - vm_compute. reflexivity.
  - intros (row & Hin & _). vm_compute in Hin. exact Hin.
Qed.

(** C6, amended.  A turn without a conversation id derives the title
    from the utterance, the utterance itself up to 50 characters and
    otherwise its first 50 characters followed by three dots, and inserts
    a conversation owned by the caller with the request's model, domain
    and that title before the backend is asked.  The conversation is kept,
    and its id returned, when the backend generates a reply; when the
    backend raises, the conversation is dropped with the transaction. *)
Theorem new_conversation_title :
  forall (env : Env) (user_id : Z) (m d u : string) (db : Database),
    let out :=
      api_chat env (Some user_id)
        {| d_model := Some m; d_message := Some u;
           d_conversation_id := None; d_domain := Some d |} db in
    let conversation :=
      {| c_id := seq_conversations db + 1; c_user_id := user_id;
         c_model_name := m; c_domain := d; c_title := Some (title u);
         c_created_at := current_timestamp env 0 |} in
    (PyStr.len u <= 50 -> title u = u) /\
    (50 < PyStr.len u ->
       title u = PyStr.slice_to 50 u +:+ "..." /\
       PyStr.len (PyStr.slice_to 50 u) = 50 /\
       exists rest, u = PyStr.slice_to 50 u +:+ rest) /\
    In (SqlInsertConversation conversation) (before_inference (trace out)) /\
    match ollama_chat env (Some m) (Some u) with
    | Generated text =>
        conversations (db_after out) = (conversations db ++ [conversation])%list /\
        response out = Json 200 [("success", JBool true); ("response", JStr text);
                                 ("conversation_id", JInt (c_id conversation))]
    | Raised error =>
        conversations (db_after out) = conversations db /\
        response out = Json 500 [("success", JBool false); ("error", JStr error)]
    end.
Proof.
  intros env user_id m d u db.
  split; [apply title_short|]. split; [apply title_long|].
  run_sql.
  destruct (ollama_chat env (Some m) (Some u)); simpl;
    (split; [left; reflexivity|split; reflexivity]).
Qed.

Lemma new_conversation_title_witness :
  title "When to sow rice?" = "When to sow rice?" /\
  title "123456789012345678901234567890123456789012345678901"
    = "12345678901234567890123456789012345678901234567890..." /\
  conversations
    (db_after (api_chat backend_up (Some alice)
                        (chat_data None "When to sow rice?") empty_db))
  = [{| c_id := 1; c_user_id := alice; c_model_name := "Jayasimma/gennai";
        c_domain := "agriculture"; c_title := Some "When to sow rice?";
        c_created_at := 1700000100 |}] /\
  conversations
    (db_after (api_chat backend_down (Some alice)
                        (chat_data None "When to sow rice?") empty_db))
  = [].
Proof.
  pose proof (new_conversation_title backend_up alice "Jayasimma/gennai"
                "agriculture" "When to sow rice?" empty_db) as Hshort.
  pose proof (new_conversation_title backend_up alice "Jayasimma/gennai"
                "agriculture"
                "123456789012345678901234567890123456789012345678901"
                empty_db) as Hlong.
  pose proof (new_conversation_title backend_down alice "Jayasimma/gennai"
                "agriculture" "When to sow rice?" empty_db) as Hdown.
  cbv zeta in Hshort, Hlong, Hdown.
  destruct Hshort as (Hshort & _ & _ & Hkept).
  destruct Hlong as (_ & Hlong & _).
  destruct Hdown as (_ & _ & _ & Hdropped).
  split; [|split; [|split]].
  - apply Hshort. vm_compute. discriminate.
  - apply Hlong. vm_compute. reflexivity.
  - apply Hkept.
  - apply Hdropped.
Defined.

Lemma api_chat_json_bound (env : Env) (session : Session) (data : ChatData)
    (db : Database) :
  (forall id, d_conversation_id data = Some id -> sqlite_integer id = true) ->
  api_chat_json env session data db = api_chat env session data db.
Proof.
  intros Hbound. unfold api_chat_json.
  destruct session; [|reflexivity].
  destruct (d_conversation_id data) as [id|]; [|reflexivity].
  rewrite (Hbound id eq_refl). reflexivity.
Qed.

(** C7. An assistant message is persisted exactly when the inference call
    of the turn succeeded.  For a request that gets as far as the backend:
    when the backend generates a reply, the store gains the user message
    followed by one assistant message with the returned text in the same
    conversation; when the backend raises, the store gains no message.
    A request that does not get as far, for want of a user, a message
    text, an id that binds, or a model and a domain for a new
    conversation, asks nothing and stores nothing. *)
Theorem assistant_message_iff_inference_succeeded :
  forall (env : Env) (session : Session) (data : ChatData) (db : Database),
    let out := api_chat_json env session data db in
    match reaches_backend session data with
    | Some (model, u) =>
        match ollama_chat env model (Some u) with
        | Generated text =>
            exists user_row reply_row,
              messages (db_after out)
                = (messages db ++ [user_row; reply_row])%list /\
              m_role user_row = "user" /\ m_content user_row = u /\
              m_role reply_row = "assistant" /\ m_content reply_row = text /\
              m_conversation_id reply_row = m_conversation_id user_row /\
              with_role "assistant" (messages (db_after out))
                = (with_role "assistant" (messages db) ++ [reply_row])%list /\
              inference_of (trace out) = Some (Generated text)
        | Raised error =>
            messages (db_after out) = messages db /\
            with_role "assistant" (messages (db_after out))
              = with_role "assistant" (messages db) /\
            inference_of (trace out) = Some (Raised error)
        end
    | None =>
        messages (db_after out) = messages db /\
        inference_of (trace out) = None
    end.
Proof.
  intros env [user_id|] [model message conversation_id domain] db;
    [|destruct message; split; reflexivity].
  unfold api_chat_json, reaches_backend.
  cbn [d_model d_message d_conversation_id d_domain].
  destruct conversation_id as [id|];
    [destruct (Z.eqb_spec id 0) as [->|Hid];
     [|destruct (sqlite_integer id) eqn:Hrange]|];
    cbn [sqlite_integer Z.leb Z.ltb andb];
    destruct message as [u|];
    try (split; reflexivity);
    try (run_sql; split; reflexivity).
  - (* id 0: a new conversation *)
    run_sql. destruct model as [m|]; [|split; reflexivity].
    destruct domain as [d|]; [|split; reflexivity]. simpl.
    destruct (ollama_chat env (Some m) (Some u)) as [text|error]; simpl.
    + do 2 eexists. rewrite <- app_assoc. simpl. repeat split.
      unfold with_role. rewrite List.filter_app. reflexivity.
    + repeat split.
  - (* an id that binds *)
    run_sql. destruct (Z.eqb_spec id 0) as [|_]; [contradiction|]. simpl.
    destruct (ollama_chat env model (Some u)) as [text|error]; simpl.
    + do 2 eexists. rewrite <- app_assoc. simpl. repeat split.
      unfold with_role. rewrite List.filter_app. reflexivity.
    + repeat split.
  - (* an id that binds, no message *)
    run_sql. destruct (Z.eqb_spec id 0) as [|_]; [contradiction|].
    split; reflexivity.
  - (* no id: a new conversation *)
    run_sql. destruct model as [m|]; [|split; reflexivity].
    destruct domain as [d|]; [|split; reflexivity]. simpl.
    destruct (ollama_chat env (Some m) (Some u)) as [text|error]; simpl.
    + do 2 eexists. rewrite <- app_assoc. simpl. repeat split.
      unfold with_role. rewrite List.filter_app. reflexivity.
    + repeat split.
Qed.

Lemma assistant_message_iff_inference_succeeded_witness :
  List.map (fun r => (m_role r, m_content r))
    (messages (db_after (api_chat_json backend_up (Some alice)
                                       (chat_data None "hi") empty_db)))
  = [("user", "hi"); ("assistant", "Hello!")] /\
  messages (db_after (api_chat_json backend_down (Some alice)
                                    (chat_data None "hi") empty_db))
  = [] /\
  messages (db_after (api_chat_json backend_up (Some alice)
                                    (chat_data (Some (2 ^ 63)) "hi") empty_db))
  = [].
Proof.
  pose proof (assistant_message_iff_inference_succeeded backend_up (Some alice)
                (chat_data None "hi") empty_db) as Hup.
  pose proof (assistant_message_iff_inference_succeeded backend_down (Some alice)
                (chat_data None "hi") empty_db) as Hdown.
  pose proof (assistant_message_iff_inference_succeeded backend_up (Some alice)
                (chat_data (Some (2 ^ 63)) "hi") empty_db) as Hbig.
  cbv zeta in Hup, Hdown, Hbig.
  split; [|split].
  - destruct Hup as (user_row & reply_row & -> & Hur & Huc & Hrr & Hrc & _).
    simpl. rewrite Hur, Huc, Hrr, Hrc. reflexivity.
  - apply Hdown.
  - apply Hbig.
Defined.

(** ** ORDER BY *)

Section InsertionEngines.

Context {A : Type} (before : Z -> Z -> bool) (key : A -> Z).
Hypothesis before_true : forall a b, before a b = true -> a <= b.
Hypothesis before_false : forall a b, before a b = false -> b <= a.

Lemma insert_by_perm (x : A) (l : list A) :
  Permutation (x :: l) (insert_by before key x l).
Proof.
  induction l as [|y r IH]; simpl; [reflexivity|].
  destruct (before (key x) (key y)); [reflexivity|].
  rewrite perm_swap. apply perm_skip. exact IH.
Qed.

Lemma insert_by_sorted (x : A) (l : list A) :
  Sorted (fun a b => key a <= key b) l ->
  Sorted (fun a b => key a <= key b) (insert_by before key x l).
Proof.
  induction 1 as [|y r Hr IH Hd]; simpl.
  - repeat constructor.
  - destruct (before (key x) (key y)) eqn:E.
    + constructor; [constructor; assumption|].
      constructor. apply before_true. exact E.
    + constructor; [exact IH|].
      destruct r as [|z r']; simpl.
      * constructor. apply before_false. exact E.
      * destruct (before (key x) (key z)); constructor.
        -- apply before_false. exact E.
        -- inversion Hd. assumption.
Qed.

Lemma sort_by_perm (rows : list A) :
  Permutation rows (sort_by before A key rows).
Proof.
  induction rows as [|x r IH]; simpl; [reflexivity|].
  rewrite <- insert_by_perm. apply perm_skip. exact IH.
Qed.

Lemma sort_by_sorted (rows : list A) :
  Sorted (fun a b => key a <= key b) (sort_by before A key rows).
Proof.
  induction rows as [|x r IH]; simpl; [constructor|].
  apply insert_by_sorted. exact IH.
Qed.

End InsertionEngines.

Lemma order_by_scan_contract : order_by_contract order_by_scan.
Proof.
  intros A key rows. split.
  - apply sort_by_perm.
  - apply sort_by_sorted; intros a b H.
    + apply Z.leb_le. exact H.
    + apply Z.leb_gt in H. lia.
Qed.

Section SortedFacts.

Context {A B : Type}.

Lemma Sorted_weaken (R R' : A -> A -> Prop) (l : list A) :
  (forall x y, R x y -> R' x y) -> Sorted R l -> Sorted R' l.
Proof.
  intros Himp. induction 1 as [|x r Hr IH Hd]; constructor; [exact IH|].
  destruct Hd; constructor. apply Himp. assumption.
Qed.

Lemma Sorted_map (f : A -> B) (R : B -> B -> Prop) (l : list A) :
  Sorted (fun x y => R (f x) (f y)) l -> Sorted R (List.map f l).
Proof.
  induction 1 as [|x r Hr IH Hd]; simpl; constructor; [exact IH|].
  destruct Hd; simpl; constructor. assumption.
Qed.

(** A list whose keys strictly increase has one sorted arrangement. *)
Lemma sorted_perm_unique (key : A -> Z) (l l' : list A) :
  StronglySorted (fun x y => key x < key y) l ->
  Permutation l l' ->
  Sorted (fun x y => key x <= key y) l' ->
  l' = l.
Proof.
  intros Hl. revert l'.
  induction Hl as [|x r Hr IH Hx]; intros l' Hp Hs.
  - apply Permutation_nil in Hp. exact Hp.
  - destruct l' as [|y r'].
    + apply Permutation_sym, Permutation_nil in Hp. discriminate.
    + assert (Hss : StronglySorted (fun a b => key a <= key b) (y :: r')).
      { apply Sorted_StronglySorted; [|exact Hs].
        intros a b c Hab Hbc. lia. }
      inversion Hss as [|? ? Hss' Hy]; subst.
      assert (Hxy : y = x).
      { assert (Hyin : In y (x :: r))
          by (eapply Permutation_in; [apply Permutation_sym; exact Hp|left; reflexivity]).
        destruct Hyin as [Heq|Hyr]; [symmetry; exact Heq|].
        assert (Hlt : key x < key y)
          by (rewrite List.Forall_forall in Hx; exact (Hx y Hyr)).
        assert (Hxin : In x (y :: r'))
          by (eapply Permutation_in; [exact Hp|left; reflexivity]).
        destruct Hxin as [Heq|Hxr]; [exact Heq|].
        assert (Hle : key y <= key x)
          by (rewrite List.Forall_forall in Hy; exact (Hy x Hxr)).
        lia. }
      subst y. f_equal. apply IH.
      * eapply Permutation_cons_inv. exact Hp.
      * inversion Hs. assumption.
Qed.

End SortedFacts.

Section StableOrder.

Context {A : Type} (key : A -> Z).




End StableOrder.




(** ** The transcript of one conversation *)





(** ** The history query *)

Section HistoryQuery.

Variable ms : list Message.

Lemma joined_rows_fst (c : Conversation) (r : Conversation * option Message) :
  In r (joined_rows ms c) -> fst r = c.
Proof.
  unfold joined_rows.
  destruct (List.filter _ ms) as [|m matched]; simpl.
  - intros [<-|[]]. reflexivity.
  - intros [<-|Hin]; [reflexivity|].
    apply List.in_map_iff in Hin as (m' & <- & _). reflexivity.
Qed.

Lemma joined_rows_matches (c : Conversation) :
  List.filter (fun m => (c_id c =? m_conversation_id m)%Z) ms
  = in_conversation (c_id c) ms.
Proof.
  unfold in_conversation. apply List.filter_ext. intros m. apply Z.eqb_sym.
Qed.

(** COUNT over the joined rows of a conversation is the number of its
    messages, 0 when the only row is the one padded with NULLs. *)
Lemma count_m_id_joined (c : Conversation) :
  count_m_id (joined_rows ms c)
  = Z.of_nat (length (in_conversation (c_id c) ms)).
Proof.
  unfold joined_rows, count_m_id. rewrite joined_rows_matches.
  destruct (in_conversation (c_id c) ms) as [|m matched]; [reflexivity|].
  f_equal. generalize (m :: matched). intros l.
  induction l as [|x l IH]; simpl; [reflexivity|].
  f_equal. exact IH.
Qed.

Lemma select_group_joined (c : Conversation) :
  select_group (joined_rows ms c) = Some (history_row ms c).
Proof.
  pose proof (count_m_id_joined c) as Hcount.
  pose proof (joined_rows_fst c) as Hfst.
  destruct (joined_rows ms c) as [|[c' o] rest] eqn:Hrows.
  - unfold joined_rows in Hrows.
    destruct (List.filter _ ms); discriminate.
  - assert (c' = c) by (apply (Hfst (c', o)); left; reflexivity). subst c'.
    unfold select_group, history_row. rewrite Hcount. reflexivity.
Qed.

(** A WHERE on the conversation columns can be pushed below the join. *)
Lemma filter_left_join (p : Conversation -> bool) (cs : list Conversation) :
  List.filter (fun r => p (fst r)) (left_join cs ms)
  = left_join (List.filter p cs) ms.
Proof.
  unfold left_join. induction cs as [|c cs IH]; simpl; [reflexivity|].
  rewrite List.filter_app, IH.
  assert (Hblock : List.filter (fun r => p (fst r)) (joined_rows ms c)
                   = if p c then joined_rows ms c else []).
  { pose proof (joined_rows_fst c) as Hfst.
    induction (joined_rows ms c) as [|r l IHl]; simpl.
    - destruct (p c); reflexivity.
    - rewrite (Hfst r) by (left; reflexivity).
      rewrite IHl by (intros r' Hr'; apply Hfst; right; exact Hr').
      destruct (p c); reflexivity. }
  rewrite Hblock. destruct (p c); reflexivity.
Qed.

Lemma nodup_block (k : Z) (block rest : list Z) :
  block <> [] -> (forall x, In x block -> x = k) -> ~ In k rest ->
  nodup Z.eq_dec (block ++ rest) = k :: nodup Z.eq_dec rest.
Proof.
  intros Hne Hall Hout. induction block as [|x block IH]; [contradiction|].
  assert (x = k) by (apply Hall; left; reflexivity). subst x. simpl.
  destruct block as [|y block].
  - simpl. destruct (in_dec Z.eq_dec k rest); [contradiction|reflexivity].
  - assert (y = k) by (apply Hall; right; left; reflexivity). subst y.
    destruct (in_dec Z.eq_dec k ((k :: block) ++ rest)) as [_|Hn].
    + apply IH; [discriminate|]. intros x Hx. apply Hall. right. exact Hx.
    + exfalso. apply Hn. left. reflexivity.
Qed.

Lemma left_join_keys (cs : list Conversation) :
  List.NoDup (List.map c_id cs) ->
  nodup Z.eq_dec (List.map joined_id (left_join cs ms)) = List.map c_id cs.
Proof.
  unfold left_join. induction cs as [|c cs IH]; simpl; intros Hnd.
  - reflexivity.
  - inversion Hnd as [|? ? Hout Hnd']; subst.
    rewrite List.map_app, nodup_block with (k := c_id c).
    + rewrite IH by exact Hnd'. reflexivity.
    + pose proof (select_group_joined c) as Hsel.
      destruct (joined_rows ms c); [discriminate|discriminate].
    + intros x Hx. apply List.in_map_iff in Hx as (r & <- & Hr).
      unfold joined_id. rewrite (joined_rows_fst c r Hr). reflexivity.
    + intros Hin. apply Hout.
      apply List.in_map_iff in Hin as (r & Hk & Hr).
      apply List.in_flat_map in Hr as (c' & Hc' & Hr).
      apply List.in_map_iff. exists c'. split; [|exact Hc'].
      rewrite <- Hk. unfold joined_id. rewrite (joined_rows_fst c' r Hr). reflexivity.
Qed.

Lemma filter_same_id (cs : list Conversation) (c : Conversation) :
  List.NoDup (List.map c_id cs) -> In c cs ->
  List.filter (fun c' => (c_id c' =? c_id c)%Z) cs = [c].
Proof.
  induction cs as [|c' cs IH]; simpl; intros Hnd Hin; [contradiction|].
  inversion Hnd as [|? ? Hout Hnd']; subst.
  destruct Hin as [->|Hin].
  - rewrite Z.eqb_refl. f_equal.
    destruct (List.filter _ cs) as [|x l] eqn:Hf; [reflexivity|].
    assert (Hx : In x (List.filter (fun c' => (c_id c' =? c_id c)%Z) cs))
      by (rewrite Hf; left; reflexivity).
    apply List.filter_In in Hx as [Hx Heq]. apply Z.eqb_eq in Heq.
    exfalso. apply Hout. rewrite <- Heq. apply List.in_map. exact Hx.
  - destruct (Z.eqb_spec (c_id c') (c_id c)) as [Heq|_].
    + exfalso. apply Hout. rewrite Heq. apply List.in_map. exact Hin.
    + apply IH; assumption.
Qed.

(** With unique conversation ids, grouping the join on [c.id] gives one
    group per conversation, and the selected row is the conversation
    with its message count. *)
Lemma grouped_join (cs : list Conversation) :
  List.NoDup (List.map c_id cs) ->
  omap select_group (group_by joined_id (left_join cs ms))
  = List.map (history_row ms) cs.
Proof.
  intros Hnd. unfold group_by. rewrite left_join_keys by exact Hnd.
  assert (Hsub : forall sub, (forall c, In c sub -> In c cs) ->
            omap select_group
              (List.map (fun k => List.filter (fun r => (joined_id r =? k)%Z)
                                              (left_join cs ms))
                        (List.map c_id sub))
            = List.map (history_row ms) sub).
  { induction sub as [|c sub IH]; intros Hin; [reflexivity|].
    cbn [List.map omap list_omap].
    rewrite IH by (intros c' Hc'; apply Hin; right; exact Hc').
    unfold joined_id.
    rewrite (filter_left_join (fun c' => (c_id c' =? c_id c)%Z) cs).
    rewrite filter_same_id by (try exact Hnd; apply Hin; left; reflexivity).
    unfold left_join. simpl. rewrite List.app_nil_r, select_group_joined.
    reflexivity. }
  apply Hsub. auto.
Qed.

End HistoryQuery.

Lemma owned_by_ids_unique (user_id : Z) (cs : list Conversation) :
  List.NoDup (List.map c_id cs) ->
  List.NoDup (List.map c_id (owned_by user_id cs)).
Proof.
  induction cs as [|c cs IH]; simpl; intros Hnd; [constructor|].
  inversion Hnd as [|? ? Hout Hnd']; subst.
  destruct (c_user_id c =? user_id)%Z; [|apply IH; exact Hnd'].
  simpl. constructor; [|apply IH; exact Hnd'].
  intros Hin. apply Hout.
  apply List.in_map_iff in Hin as (c' & Heq & Hc').
  apply List.filter_In in Hc' as [Hc' _].
  rewrite <- Heq. apply List.in_map. exact Hc'.
Qed.

(** C9. [history] lists exactly the conversations the caller owns, most
    recent first, each with the number of messages that reference it; a
    conversation without messages is listed with count 0. *)
Theorem history_lists_owned_conversations :
  forall (env : Env) (user_id : Z) (db : Database),
    order_by_contract (order_by env) ->
    List.NoDup (List.map c_id (conversations db)) ->
    exists rows,
      history env (Some user_id) db = RenderHistory rows /\
      Permutation
        (List.map (history_row (messages db))
                  (owned_by user_id (conversations db)))
        rows /\
      Sorted (fun a b => h_created_at a >= h_created_at b) rows /\
      (forall c, In c (conversations db) -> c_user_id c = user_id ->
                 in_conversation (c_id c) (messages db) = [] ->
                 exists row, In row rows /\ h_id row = c_id c /\
                             h_title row = c_title c /\
                             h_message_count row = 0).
Proof.
  intros env user_id db Hengine Hnd.
  unfold history.
  rewrite (filter_left_join (messages db)
             (fun c => (c_user_id c =? user_id)%Z) (conversations db)).
  fold (owned_by user_id (conversations db)).
  rewrite grouped_join by (apply owned_by_ids_unique; exact Hnd).
  destruct (Hengine HistoryRow (fun r => - h_created_at r)
              (List.map (history_row (messages db))
                        (owned_by user_id (conversations db))))
    as [Hperm Hsorted].
  eexists. split; [reflexivity|]. split; [exact Hperm|]. split.
  - eapply Sorted_weaken; [|exact Hsorted]. simpl. intros x y H. lia.
  - intros c Hin Hu Hnone. exists (history_row (messages db) c).
    split; [|split; [reflexivity|split; [reflexivity|]]].
    + eapply Permutation_in; [exact Hperm|].
      apply List.in_map. apply List.filter_In. split; [exact Hin|].
      apply Z.eqb_eq. exact Hu.
    + unfold history_row. simpl. rewrite Hnone. reflexivity.
Qed.

Lemma history_lists_owned_conversations_witness :
  exists rows,
    history backend_up (Some bob) quiet_db = RenderHistory rows /\
    Permutation
      (List.map (history_row (messages quiet_db))
                (owned_by bob (conversations quiet_db)))
      rows /\
    Sorted (fun a b => h_created_at a >= h_created_at b) rows /\
    exists row, In row rows /\ h_id row = 2 /\ h_title row = Some "Soil" /\
                h_message_count row = 0.
Proof.
  destruct (history_lists_owned_conversations backend_up bob quiet_db)
    as (rows & Hview & Hperm & Hsorted & Hzero).
  - exact order_by_scan_contract.
  - vm_compute. repeat constructor.
    + intros [H|[]]. discriminate H.
    + intros [].
  - exists rows. repeat split; try assumption.
    apply (Hzero {| c_id := 2; c_user_id := bob;
                    c_model_name := "Jayasimma/Puzhavan";
                    c_domain := "agriculture"; c_title := Some "Soil";
                    c_created_at := 1700000050 |}).
    + vm_compute. right. left. reflexivity.
    + reflexivity.
    + vm_compute. reflexivity.
Defined.

(** ** Uploads *)

Lemma allowed_file_no_dot (filename : string) :
  PyStr.contains "." filename = false -> allowed_file filename = false.
Proof. intros H. unfold allowed_file. rewrite H. reflexivity. Qed.

Lemma extension_of (stem ext : string) :
  PyStr.contains "." ext = false ->
  extension (stem +:+ "." +:+ ext) = Some (PyStr.lower ext).
Proof.
  intros H. unfold extension.
  change ("." +:+ ext) with (String "." ext).
  rewrite rsplit1_last by exact H. reflexivity.
Qed.

Lemma allowed_file_extension (stem ext : string) :
  PyStr.contains "." ext = false ->
  allowed_file (stem +:+ "." +:+ ext)
  = bool_decide (PyStr.lower ext ∈ ALLOWED_EXTENSIONS).
Proof.
  intros H. unfold allowed_file.
  rewrite extension_of by exact H.
  rewrite contains_append.
  change ("." +:+ ext) with (String "." ext). simpl.
  rewrite orb_true_r. reflexivity.
Qed.

(** A request without a file part, or with an unnamed one, is answered
    before any check of the name. *)
Lemma upload_without_file (env : Env) (user_id : Z) (request : UploadRequest)
    (db : Database) (blobs : gmap string string) :
  content_length request <= MAX_CONTENT_LENGTH ->
  files_file request = None ->
  upload_file env (Some user_id) request db blobs
  = upload_rejected
      (Json 400 [("success", JBool false); ("error", JStr "No file provided")])
      db blobs.
Proof.
  intros Hlen Hnone. unfold upload_file. rewrite Hnone.
  destruct (Z.ltb_spec MAX_CONTENT_LENGTH (content_length request)); [lia|].
  reflexivity.
Qed.

(** C8. An upload whose file name has no extension, or whose lowercased
    extension is outside the allow-list, is answered with the error
    [Invalid file type], which differs from the answer to a request
    without a file; nothing is written to the upload folder and no row is
    inserted.  A file with an allowed extension, within the size limit, is
    saved under the generated name, recorded, and the path is returned. *)
Theorem upload_validates_extension :
  forall (env : Env) (user_id : Z) (request : UploadRequest)
         (file : FileStorage) (db : Database) (blobs : gmap string string),
    files_file request = Some file ->
    content_length request <= MAX_CONTENT_LENGTH ->
    filename file <> "" ->
    let out := upload_file env (Some user_id) request db blobs in
    let missing :=
      upload_file env (Some user_id)
        {| content_length := content_length request; files_file := None;
           form_conversation_id := form_conversation_id request |} db blobs in
    (PyStr.contains "." (filename file) = false \/
     (exists stem ext,
        filename file = stem +:+ "." +:+ ext /\
        PyStr.contains "." ext = false /\
        PyStr.lower ext ∉ ALLOWED_EXTENSIONS) ->
     u_response out
       = Json 400 [("success", JBool false); ("error", JStr "Invalid file type")] /\
     u_response missing
       = Json 400 [("success", JBool false); ("error", JStr "No file provided")] /\
     u_response out <> u_response missing /\
     u_blobs_after out = blobs /\
     u_db_after out = db /\
     u_trace out = []) /\
    (forall stem ext,
       filename file = stem +:+ "." +:+ ext ->
       PyStr.contains "." ext = false ->
       PyStr.lower ext ∈ ALLOWED_EXTENSIONS ->
       let stored := PyStr.of_int user_id +:+ "_" +:+ strftime_now env +:+ "_"
                     +:+ secure_filename env (filename file) in
       let filepath := path_join UPLOAD_FOLDER stored in
       u_response out
         = Json 200 [("success", JBool true); ("filepath", JStr filepath);
                     ("filename", JStr stored)] /\
       u_blobs_after out !! filepath = Some (stream file) /\
       u_blobs_after out = <[filepath := stream file]> blobs /\
       conversations (u_db_after out) = conversations db /\
       messages (u_db_after out) = messages db /\
       uploaded_files (u_db_after out)
         = (uploaded_files db ++
            [{| f_id := seq_uploaded_files db + 1; f_user_id := user_id;
                f_conversation_id := form_conversation_id request;
                f_filename := filename file; f_file_path := filepath;
                f_file_type := PyStr.lower ext;
                f_uploaded_at := current_timestamp env 0 |}])%list).
Proof.
  intros env user_id request file db blobs Hfile Hlen Hname out missing.
  assert (Hmissing : u_response missing
            = Json 400 [("success", JBool false);
                        ("error", JStr "No file provided")]).
  { unfold missing. rewrite upload_without_file by (simpl; auto). reflexivity. }
  assert (Hout : out =
            if allowed_file (filename file)
            then upload_file env (Some user_id) request db blobs
            else upload_rejected
                   (Json 400 [("success", JBool false);
                              ("error", JStr "Invalid file type")]) db blobs).
  { unfold out, upload_file. rewrite Hfile.
    destruct (Z.ltb_spec MAX_CONTENT_LENGTH (content_length request)); [lia|].
    destruct (String.eqb_spec (filename file) ""); [contradiction|].
    simpl. destruct (allowed_file (filename file)); reflexivity. }
  split.
  - intros Hbad.
    assert (Hno : allowed_file (filename file) = false).
    { destruct Hbad as [Hdot|(stem & ext & -> & Hext & Hout')].
      - apply allowed_file_no_dot. exact Hdot.
      - rewrite allowed_file_extension by exact Hext.
        apply bool_decide_eq_false. exact Hout'. }
    rewrite Hmissing, Hout, Hno. simpl. repeat split. discriminate.
  - intros stem ext Heq Hext Hin stored filepath.
    assert (Hyes : allowed_file (filename file) = true).
    { rewrite Heq, allowed_file_extension by exact Hext.
      apply bool_decide_eq_true. exact Hin. }
    unfold out, upload_file. rewrite Hfile.
    destruct (Z.ltb_spec MAX_CONTENT_LENGTH (content_length request)); [lia|].
    destruct (String.eqb_spec (filename file) ""); [contradiction|].
    rewrite Hyes. simpl.
    assert (Hx : extension (filename file) = Some (PyStr.lower ext))
      by (rewrite Heq; apply extension_of; exact Hext).
    run_sql. rewrite Hx. simpl.
    repeat split. apply lookup_insert_eq.
Qed.

Lemma upload_validates_extension_witness :
  let rejected :=
    upload_file backend_up (Some alice) (upload_of "report.exe") empty_db ∅ in
  let accepted :=
    upload_file backend_up (Some alice) (upload_of "report.pdf") empty_db ∅ in
  (u_response rejected
     = Json 400 [("success", JBool false); ("error", JStr "Invalid file type")] /\
   u_blobs_after rejected = ∅ /\
   u_db_after rejected = empty_db) /\
  (u_response accepted
     = Json 200 [("success", JBool true);
                 ("filepath", JStr "uploads/1_20240101_120000_report.pdf");
                 ("filename", JStr "1_20240101_120000_report.pdf")] /\
   u_blobs_after accepted !! "uploads/1_20240101_120000_report.pdf"
     = Some "%PDF-1.4").
Proof.
  split.
  - destruct (upload_validates_extension backend_up alice
                (upload_of "report.exe")
                {| filename := "report.exe"; stream := "%PDF-1.4" |}
                empty_db ∅) as [Hbad _].
    + reflexivity.
    + vm_compute. discriminate.
    + discriminate.
    + destruct Hbad as (Hresp & _ & _ & Hblobs & Hdb & _).
      * right. exists "report", "exe". split; [reflexivity|].
        split; [reflexivity|].
        apply (proj1 (bool_decide_eq_false _)). vm_compute. reflexivity.
      * auto.
  - destruct (upload_validates_extension backend_up alice
                (upload_of "report.pdf")
                {| filename := "report.pdf"; stream := "%PDF-1.4" |}
                empty_db ∅) as [_ Hgood].
    + reflexivity.
    + vm_compute. discriminate.
    + discriminate.
    + destruct (Hgood "report" "pdf") as (Hresp & Hblob & _).
      * reflexivity.
      * reflexivity.
      * apply (proj1 (bool_decide_eq_true _)). vm_compute. reflexivity.
      * split; [exact Hresp|exact Hblob].
Defined.

(** * Further properties *)

(** ** The chat route and its domain of model names *)

Lemma replace_nonempty (old new : ascii) (s : string) :
  s <> "" -> PyStr.replace old new s <> "".
Proof. destruct s; [contradiction|discriminate]. Qed.

(** X1. Through the chat route a model name can be opened exactly when it
    is non-empty and has no underscore: some non-empty segment without a
    slash renders the page with that name if and only if the name has no
    underscore.  The route never checks the name against the models of
    the domain. *)
Theorem chat_reachable_models :
  forall (user_id : Z) (domain model_name : string) (domain_info : DomainInfo),
    MODELS !! domain = Some domain_info ->
    ((exists segment,
        segment <> "" /\ PyStr.contains "/" segment = false /\
        chat (Some user_id) domain segment
        = RenderChat domain model_name domain_info)
     <-> (model_name <> "" /\ PyStr.contains "_" model_name = false)).
Proof.
  intros user_id domain model_name domain_info Hdom. unfold chat.
  rewrite Hdom. split.
  - intros (segment & Hne & _ & Heq). injection Heq as <-. split.
    + apply replace_nonempty. exact Hne.
    + apply replace_removes. discriminate.
  - intros [Hne Hus]. exists (PyStr.replace "/" "_" model_name).
    split; [apply replace_nonempty; exact Hne|].
    split; [apply replace_removes; discriminate|].
    f_equal. apply (chat_decode_roundtrip model_name Hus).
Qed.

Lemma chat_reachable_models_witness :
  (exists segment,
      segment <> "" /\ PyStr.contains "/" segment = false /\
      chat (Some alice) "healthcare" segment
      = RenderChat "healthcare" "Jayasimma/gennai"
          {| name := "Healthcare";
             models := ["Jayasimma/bharatbuddy"; "Jayasimma/Puzhavan"];
             description :=
               "Medical advice, health information, and wellness guidance" |})
  /\ ~ (exists segment,
          segment <> "" /\ PyStr.contains "/" segment = false /\
          chat (Some alice) "healthcare" segment
          = RenderChat "healthcare" "nature_remedy"
              {| name := "Healthcare";
                 models := ["Jayasimma/bharatbuddy"; "Jayasimma/Puzhavan"];
                 description :=
                   "Medical advice, health information, and wellness guidance" |}).
Proof.
  split.
  - apply (chat_reachable_models alice "healthcare" "Jayasimma/gennai").
    + vm_compute. reflexivity.
    + split; [discriminate|vm_compute; reflexivity].
  - intros H.
    apply (chat_reachable_models alice "healthcare" "nature_remedy") in H.
    + destruct H as [_ H]. vm_compute in H. discriminate H.
    + vm_compute. reflexivity.
Defined.

(** ** Title derivation *)

Lemma length_append (a b : string) :
  String.length (a +:+ b) = (String.length a + String.length b)%nat.
Proof.
  induction a as [|c r IH]; [reflexivity|].
  rewrite append_cons. simpl. rewrite IH. reflexivity.
Qed.

Lemma slice_to_append (a b : string) :
  PyStr.slice_to (String.length a) (a +:+ b) = a.
Proof.
  unfold PyStr.slice_to. induction a as [|c r IH].
  - rewrite append_nil. destruct b; reflexivity.
  - rewrite append_cons. simpl. rewrite IH. reflexivity.
Qed.

(** X2. A derived title never has more than 53 characters, and deriving
    a title from a title gives the same title back. *)
Theorem title_bounded_idempotent :
  forall u : string, PyStr.len (title u) <= 53 /\ title (title u) = title u.
Proof.
  intros u. destruct (Z_le_gt_dec (PyStr.len u) 50) as [Hshort|Hlong].
  - rewrite (title_short u Hshort). split; [lia|].
    apply title_short. exact Hshort.
  - destruct (title_long u) as (Ht & Hlen & _); [lia|].
    assert (H53 : PyStr.len (title u) = 53).
    { rewrite Ht. unfold PyStr.len in *. rewrite length_append. simpl. lia. }
    split; [lia|].
    destruct (title_long (title u)) as (Ht2 & _); [lia|].
    rewrite Ht2. rewrite Ht at 1.
    assert (H50 : String.length (PyStr.slice_to 50 u) = 50%nat)
      by (unfold PyStr.len in Hlen; lia).
    rewrite <- H50 at 1. rewrite slice_to_append. symmetry. exact Ht.
Qed.

(** ** File names *)

Lemma split_at_last_dot (filename : string) :
  PyStr.contains "." filename = true ->
  exists stem ext,
    filename = stem +:+ "." +:+ ext /\ PyStr.contains "." ext = false.
Proof.
  induction filename as [|c r IH]; simpl; [discriminate|].
  intros H. destruct (PyStr.contains "." r) eqn:Hr.
  - destruct (IH eq_refl) as (stem & ext & -> & Hext).
    exists (String c stem), ext. split; [reflexivity|exact Hext].
  - rewrite orb_false_r in H. apply Ascii.eqb_eq in H. subst c.
    exists "", r. split; [reflexivity|exact Hr].
Qed.

(** X3. [allowed_file] accepts a name exactly when the text after its
    last dot, lowercased, is on the allow-list; what stands before the
    last dot, other dots included, plays no part. *)
Theorem allowed_file_iff :
  forall filename : string,
    allowed_file filename = true <->
    exists stem ext,
      filename = stem +:+ "." +:+ ext /\
      PyStr.contains "." ext = false /\
      PyStr.lower ext ∈ ALLOWED_EXTENSIONS.
Proof.
  intros filename. split.
  - intros H.
    assert (Hdot : PyStr.contains "." filename = true).
    { unfold allowed_file in H. apply andb_true_iff in H as [H _]. exact H. }
    destruct (split_at_last_dot filename Hdot) as (stem & ext & Heq & Hext).
    exists stem, ext. split; [exact Heq|]. split; [exact Hext|].
    rewrite Heq, allowed_file_extension in H by exact Hext.
    apply bool_decide_eq_true in H. exact H.
  - intros (stem & ext & -> & Hext & Hin).
    rewrite allowed_file_extension by exact Hext.
    apply bool_decide_eq_true. exact Hin.
Qed.

(** X4. The check does not depend on the case of the extension nor on
    the stem: two names whose extensions agree once lowercased are both
    accepted or both rejected. *)
Theorem allowed_file_ignores_case_and_stem :
  forall stem stem' ext ext' : string,
    PyStr.contains "." ext = false ->
    PyStr.contains "." ext' = false ->
    PyStr.lower ext = PyStr.lower ext' ->
    allowed_file (stem +:+ "." +:+ ext) = allowed_file (stem' +:+ "." +:+ ext').
Proof.
  intros stem stem' ext ext' Hext Hext' Hlow.
  rewrite !allowed_file_extension by assumption.
  rewrite Hlow. reflexivity.
Qed.

Lemma allowed_file_ignores_case_and_stem_witness :
  allowed_file "report.pdf" = allowed_file "Scan.2024.PDF" /\
  allowed_file "Scan.2024.PDF" = true.
Proof.
  split.
  - apply (allowed_file_ignores_case_and_stem "report" "Scan.2024" "pdf" "PDF");
      vm_compute; reflexivity.
  - vm_compute. reflexivity.
Defined.

(** ** More on chat turns *)

(** All paths through [api_chat] for a logged-in user. *)
Ltac api_chat_paths model message conversation_id domain :=
  run_sql;
  destruct conversation_id as [?id|];
    [match goal with |- context [(?i =? 0)%Z] => destruct (Z.eqb_spec i 0) end|];
    destruct message as [?u|]; simpl;
    try (destruct model as [?m|]; simpl; try (destruct domain as [?d|]; simpl));
    try match goal with
        | |- context [ollama_chat ?e ?m ?c] => destruct (ollama_chat e m c); simpl
        end.

(** X5. A turn is stored as a whole or not at all, and being stored goes
    with the success answer: either the response is not a 200 and the
    store is what it was, or the response is a 200 and the store has
    gained the two messages of the turn, numbered after the counter, and
    at most one conversation; earlier rows and the uploads are untouched. *)
Theorem api_chat_all_or_nothing :
  forall (env : Env) (session : Session) (data : ChatData) (db : Database),
    let out := api_chat env session data db in
    (db_after out = db /\ forall body, response out <> Json 200 body) \/
    (exists new_conversations user_row reply_row body,
       response out = Json 200 body /\
       conversations (db_after out)
         = (conversations db ++ new_conversations)%list /\
       (length new_conversations <= 1)%nat /\
       messages (db_after out) = (messages db ++ [user_row; reply_row])%list /\
       m_id user_row = seq_messages db + 1 /\
       m_id reply_row = seq_messages db + 2 /\
       seq_messages (db_after out) = seq_messages db + 2 /\
       uploaded_files (db_after out) = uploaded_files db /\
       seq_uploaded_files (db_after out) = seq_uploaded_files db).
Proof.
  intros env [user_id|] [model message conversation_id domain] db;
    [|left; split; [reflexivity|discriminate]].
  api_chat_paths model message conversation_id domain;
    try (left; split; [reflexivity|discriminate]);
    right;
    first
      [ exists []; do 3 eexists; rewrite <- ?app_assoc, app_nil_r; simpl;
        repeat split; try reflexivity; simpl; lia
      | do 4 eexists; rewrite <- ?app_assoc; simpl;
        repeat split; try reflexivity; simpl; lia ].
Qed.

(** X6. A request without a message text never reaches the inference
    backend: the exception escapes the view, whichever branch raised it,
    and nothing is stored. *)
Theorem api_chat_missing_message :
  forall (env : Env) (user_id : Z) (model domain : option string)
         (conversation_id : option Z) (db : Database),
    let out :=
      api_chat env (Some user_id)
        {| d_model := model; d_message := None;
           d_conversation_id := conversation_id; d_domain := domain |} db in
    (exists e, response out = Unhandled e) /\
    db_after out = db /\
    inference_of (trace out) = None.
Proof.
  intros env user_id model domain conversation_id db. run_sql.
  destruct conversation_id as [id|]; [destruct (Z.eqb_spec id 0)|]; simpl;
    repeat split; eexists; reflexivity.
Qed.

(** X7. A conversation is created once.  After a first turn without a
    conversation id, a second turn that names the returned id adds its two
    messages under the same id and leaves the conversations as the first
    turn left them. *)
Theorem api_chat_second_turn_same_conversation :
  forall (env1 env2 : Env) (user_id : Z) (m d a b text1 text2 : string)
         (db : Database),
    0 <= seq_conversations db ->
    ollama_chat env1 (Some m) (Some a) = Generated text1 ->
    ollama_chat env2 (Some m) (Some b) = Generated text2 ->
    let conversation_id := seq_conversations db + 1 in
    let out1 :=
      api_chat env1 (Some user_id)
        {| d_model := Some m; d_message := Some a;
           d_conversation_id := None; d_domain := Some d |} db in
    let out2 :=
      api_chat env2 (Some user_id)
        {| d_model := Some m; d_message := Some b;
           d_conversation_id := Some conversation_id; d_domain := Some d |}
        (db_after out1) in
    json_get "conversation_id"
      match response out1 with Json _ body => body | _ => [] end
      = Some (JInt conversation_id) /\
    response out2 = Json 200 [("success", JBool true); ("response", JStr text2);
                              ("conversation_id", JInt conversation_id)] /\
    conversations (db_after out2) = conversations (db_after out1) /\
    length (conversations (db_after out2)) = S (length (conversations db)) /\
    List.map (fun r => (m_conversation_id r, m_role r, m_content r))
             (messages (db_after out2))
    = (List.map (fun r => (m_conversation_id r, m_role r, m_content r))
                (messages db)
       ++ [(conversation_id, "user", a); (conversation_id, "assistant", text1);
           (conversation_id, "user", b); (conversation_id, "assistant", text2)])%list.
Proof.
  intros env1 env2 user_id m d a b text1 text2 db Hseq H1 H2. run_sql.
  rewrite H1. simpl.
  destruct (Z.eqb_spec (seq_conversations db + 1) 0) as [E|_]; [lia|].
  simpl. rewrite H2. simpl.
  repeat split.
  - rewrite List.length_app. simpl. lia.
  - rewrite <- !app_assoc, List.map_app. reflexivity.
Qed.

Lemma api_chat_second_turn_same_conversation_witness :
  let out1 := api_chat backend_up (Some alice) (chat_data None "When?") empty_db in
  let out2 := api_chat backend_up (Some alice) (chat_data (Some 1) "Where?")
                       (db_after out1) in
  conversations (db_after out2) = conversations (db_after out1) /\
  length (conversations (db_after out2)) = 1%nat.
Proof.
  destruct (api_chat_second_turn_same_conversation backend_up backend_up alice
              "Jayasimma/gennai" "agriculture" "When?" "Where?" "Hello!" "Hello!"
              empty_db) as (_ & _ & Hsame & Hlen & _).
  - vm_compute. discriminate.
  - reflexivity.
  - reflexivity.
  - split; [exact Hsame|exact Hlen].
Defined.



Lemma message_ids_append (db : Database) (cs : list Conversation)
    (ups : list UploadedFile) (sc su : Z) (user_row reply_row : Message) :
  message_ids_ok db ->
  m_id user_row = seq_messages db + 1 ->
  m_id reply_row = seq_messages db + 1 + 1 ->
  message_ids_ok
    {| conversations := cs;
       messages := (messages db ++ [user_row]) ++ [reply_row];
       uploaded_files := ups; seq_conversations := sc;
       seq_messages := seq_messages db + 1 + 1; seq_uploaded_files := su |}.
Proof.
  intros [Hnd Hle] Hu Hr. split; simpl.
  - rewrite <- app_assoc, List.map_app. simpl. rewrite Hu, Hr.
    apply List.NoDup_app; [exact Hnd| |].
    + repeat constructor; simpl; [intros [H|[]]; lia|intros []].
    + intros x Hx Hin.
      apply List.in_map_iff in Hx as (row & Heq & Hrow).
      rewrite List.Forall_forall in Hle. specialize (Hle row Hrow).
      destruct Hin as [H|[H|[]]]; lia.
  - rewrite <- app_assoc. apply List.Forall_app. split.
    + eapply List.Forall_impl; [|exact Hle]. simpl. intros; lia.
    + repeat constructor; lia.
Qed.

(** The rowid order of [messages] survives every request as well. *)
Lemma api_chat_keeps_rowid_order (env : Env) (session : Session)
    (data : ChatData) (db : Database) :
  message_ids_ok db -> messages_in_rowid_order db ->
  messages_in_rowid_order (db_after (api_chat env session data db)).
Proof.
  intros [_ Hle] Hsorted.
  assert (Hnew : forall (cs : list Conversation) (ups : list UploadedFile)
                        (sc sm su : Z) (user_row reply_row : Message),
            m_id user_row = seq_messages db + 1 ->
            m_id reply_row = seq_messages db + 1 + 1 ->
            messages_in_rowid_order
              {| conversations := cs;
                 messages := (messages db ++ [user_row]) ++ [reply_row];
                 uploaded_files := ups; seq_conversations := sc;
                 seq_messages := sm; seq_uploaded_files := su |}).
  { intros cs ups sc sm su user_row reply_row Hu Hr.
    unfold messages_in_rowid_order in *. cbn [messages].
    rewrite <- app_assoc. simpl.
    induction Hsorted as [|x r Hr' IH Hx]; simpl.
    - repeat constructor. lia.
    - inversion Hle as [|? ? Hxle Hrle]; subst.
      constructor; [apply IH; exact Hrle|].
      apply List.Forall_app. split; [exact Hx|].
      rewrite List.Forall_forall in Hrle.
      repeat constructor; lia. }
  destruct session as [user_id|]; [|exact Hsorted].
  destruct data as [model message conversation_id domain].
  api_chat_paths model message conversation_id domain;
    try exact Hsorted; apply Hnew; reflexivity.
Qed.

(** X9. The primary keys survive every request: when the ids of the
    conversations and of the messages are unique and bounded by their
    counters before a turn, they are after it. *)
Theorem api_chat_keeps_primary_keys :
  forall (env : Env) (session : Session) (data : ChatData) (db : Database),
    conversation_ids_ok db -> message_ids_ok db ->
    conversation_ids_ok (db_after (api_chat env session data db)) /\
    message_ids_ok (db_after (api_chat env session data db)).
Proof.
  intros env session data db Hc Hm.
  split; [apply api_chat_keeps_ids; exact Hc|].
  destruct session as [user_id|]; [|exact Hm].
  destruct data as [model message conversation_id domain].
  api_chat_paths model message conversation_id domain;
    try exact Hm;
    apply message_ids_append; auto.
Qed.

Lemma api_chat_keeps_primary_keys_witness :
  conversation_ids_ok bobs_db /\ message_ids_ok bobs_db.
Proof.
  apply (api_chat_keeps_primary_keys
           (backend order_by_scan (ticking 1700000000)
                    (Generated "After the first monsoon rain."))
           (Some bob) (chat_data None "When to sow rice?") empty_db).
  - split; constructor.
  - split; constructor.
Defined.

(** ** Reading back what a turn stored *)

Lemma find_app_none {A : Type} (f : A -> bool) (l l' : list A) :
  (forall x, In x l -> f x = false) ->
  List.find f (l ++ l') = List.find f l'.
Proof.
  induction l as [|x l IH]; simpl; intros H; [reflexivity|].
  rewrite (H x) by (left; reflexivity).
  apply IH. intros y Hy. apply H. right. exact Hy.
Qed.

Lemma in_conversation_none (conversation_id : Z) (ms : list Message) :
  Forall (fun r => m_conversation_id r <> conversation_id) ms ->
  List.filter (fun r => (m_conversation_id r =? conversation_id)%Z) ms = [].
Proof.
  induction 1 as [|r ms Hr _ IH]; simpl; [reflexivity|].
  destruct (Z.eqb_spec (m_conversation_id r) conversation_id); [contradiction|].
  exact IH.
Qed.

(** The store after a successful first turn. *)
Lemma api_chat_first_turn (env : Env) (user_id : Z) (m d u text : string)
    (db : Database) :
  ollama_chat env (Some m) (Some u) = Generated text ->
  db_after (api_chat env (Some user_id)
              {| d_model := Some m; d_message := Some u;
                 d_conversation_id := None; d_domain := Some d |} db)
  = {| conversations :=
         conversations db ++
         [{| c_id := seq_conversations db + 1; c_user_id := user_id;
             c_model_name := m; c_domain := d; c_title := Some (title u);
             c_created_at := current_timestamp env 0 |}];
       messages :=
         (messages db ++
          [{| m_id := seq_messages db + 1;
              m_conversation_id := seq_conversations db + 1;
              m_user_id := user_id; m_role := "user"; m_content := u;
              m_input_type := Some "text"; m_file_path := None;
              m_created_at := current_timestamp env 1 |}]) ++
         [{| m_id := seq_messages db + 1 + 1;
             m_conversation_id := seq_conversations db + 1;
             m_user_id := user_id; m_role := "assistant"; m_content := text;
             m_input_type := Some "text"; m_file_path := None;
             m_created_at := current_timestamp env 2 |}];
       uploaded_files := uploaded_files db;
       seq_conversations := seq_conversations db + 1;
       seq_messages := seq_messages db + 1 + 1;
       seq_uploaded_files := seq_uploaded_files db |}.
Proof. intros H. run_sql. rewrite H. reflexivity. Qed.

(** X10. What a first turn stored is what its author reads back.  When no
    earlier message already points at the id the new conversation gets and
    the reply is stamped later than the question, the transcript of the
    returned id is the question followed by the reply, under a
    conversation owned by the caller and titled from the question. *)
Theorem first_turn_transcript :
  forall (env : Env) (user_id : Z) (m d u text : string) (db : Database),
    order_by_contract (order_by env) ->
    conversation_ids_ok db ->
    Forall (fun r => m_conversation_id r <> seq_conversations db + 1)
           (messages db) ->
    ollama_chat env (Some m) (Some u) = Generated text ->
    current_timestamp env 1 < current_timestamp env 2 ->
    let out :=
      api_chat env (Some user_id)
        {| d_model := Some m; d_message := Some u;
           d_conversation_id := None; d_domain := Some d |} db in
    view_conversation env (Some user_id) (seq_conversations db + 1) (db_after out)
    = RenderConversation
        {| c_id := seq_conversations db + 1; c_user_id := user_id;
           c_model_name := m; c_domain := d; c_title := Some (title u);
           c_created_at := current_timestamp env 0 |}
        [("user", u, current_timestamp env 1);
         ("assistant", text, current_timestamp env 2)].
Proof.
  intros env user_id m d u text db Hengine [_ Hle] Hfresh Hgen Hlt out.
  subst out. rewrite (api_chat_first_turn env user_id m d u text db Hgen).
  unfold view_conversation. cbn [conversations messages].
  rewrite find_app_none.
  2:{ intros c Hc. rewrite List.Forall_forall in Hle. specialize (Hle c Hc).
      destruct (Z.eqb_spec (c_id c) (seq_conversations db + 1)); [lia|reflexivity]. }
  cbn [List.find c_id c_user_id]. rewrite !Z.eqb_refl. cbn [andb].
  rewrite !List.filter_app.
  rewrite (in_conversation_none _ _ Hfresh).
  cbn [List.filter m_conversation_id app]. rewrite !Z.eqb_refl. cbn [app].
  match goal with
  | |- context [order_by env Message m_created_at ?rows] =>
      destruct (Hengine Message m_created_at rows) as [Hperm Hsorted];
      rewrite (sorted_perm_unique m_created_at rows
                 (order_by env Message m_created_at rows))
  end.
  - reflexivity.
  - repeat constructor. simpl. exact Hlt.
  - exact Hperm.
  - exact Hsorted.
Qed.

Lemma first_turn_transcript_witness :
  view_conversation backend_up (Some alice) 1
    (db_after (api_chat backend_up (Some alice) (chat_data None "When?") empty_db))
  = RenderConversation
      {| c_id := 1; c_user_id := alice; c_model_name := "Jayasimma/gennai";
         c_domain := "agriculture"; c_title := Some "When?";
         c_created_at := 1700000100 |}
      [("user", "When?", 1700000101); ("assistant", "Hello!", 1700000102)].
Proof.
  apply (first_turn_transcript backend_up alice "Jayasimma/gennai" "agriculture"
           "When?" "Hello!" empty_db).
  - exact order_by_scan_contract.
  - split; constructor.
  - constructor.
  - reflexivity.
  - vm_compute. reflexivity.
Defined.


(** The rows of the history page, before the engine orders them. *)
Lemma history_rows (env : Env) (user_id : Z) (db : Database) :
  List.NoDup (List.map c_id (conversations db)) ->
  history env (Some user_id) db
  = RenderHistory
      (order_by env HistoryRow (fun r => - h_created_at r)
         (List.map (history_row (messages db))
                   (owned_by user_id (conversations db)))).
Proof.
  intros Hnd. unfold history.
  rewrite (filter_left_join (messages db)
             (fun c => (c_user_id c =? user_id)%Z) (conversations db)).
  fold (owned_by user_id (conversations db)).
  rewrite grouped_join by (apply owned_by_ids_unique; exact Hnd).
  reflexivity.
Qed.

(** X12. A first turn shows up in its author's history: under the same
    conditions on the store, the history page after the turn has one row
    more than before, and among its rows is the new conversation with its
    derived title and a message count of 2. *)
Theorem first_turn_listed_in_history :
  forall (env : Env) (user_id : Z) (m d u text : string) (db : Database),
    order_by_contract (order_by env) ->
    conversation_ids_ok db ->
    Forall (fun r => m_conversation_id r <> seq_conversations db + 1)
           (messages db) ->
    ollama_chat env (Some m) (Some u) = Generated text ->
    let out :=
      api_chat env (Some user_id)
        {| d_model := Some m; d_message := Some u;
           d_conversation_id := None; d_domain := Some d |} db in
    exists rows,
      history env (Some user_id) (db_after out) = RenderHistory rows /\
      In {| h_id := seq_conversations db + 1; h_model_name := m; h_domain := d;
            h_title := Some (title u);
            h_created_at := current_timestamp env 0;
            h_message_count := 2 |} rows /\
      length rows = S (length (owned_by user_id (conversations db))).
Proof.
  intros env user_id m d u text db Hengine Hok Hfresh Hgen out.
  assert (Hok' : conversation_ids_ok (db_after out))
    by (apply api_chat_keeps_ids; exact Hok).
  rewrite (history_rows env user_id (db_after out) (proj1 Hok')).
  subst out. rewrite (api_chat_first_turn env user_id m d u text db Hgen).
  cbn [conversations messages].
  match goal with
  | |- context [order_by env HistoryRow ?key ?rows] =>
      destruct (Hengine HistoryRow key rows) as [Hperm _];
      exists (order_by env HistoryRow key rows)
  end.
  split; [reflexivity|]. split.
  - eapply Permutation_in; [exact Hperm|].
    unfold owned_by. rewrite List.filter_app, List.map_app.
    apply List.in_or_app. right. simpl. rewrite Z.eqb_refl. left.
    unfold history_row, in_conversation. cbn [c_id c_model_name c_domain c_title
                                              c_created_at].
    rewrite !List.filter_app, (in_conversation_none _ _ Hfresh).
    simpl. rewrite Z.eqb_refl. reflexivity.
  - rewrite <- (Permutation_length Hperm), List.length_map.
    unfold owned_by. rewrite List.filter_app, List.length_app.
    simpl. rewrite Z.eqb_refl. simpl. lia.
Qed.

Lemma first_turn_listed_in_history_witness :
  exists rows,
    history backend_up (Some alice)
      (db_after (api_chat backend_up (Some alice) (chat_data None "When?") bobs_db))
    = RenderHistory rows /\
    In {| h_id := 2; h_model_name := "Jayasimma/gennai";
          h_domain := "agriculture"; h_title := Some "When?";
          h_created_at := 1700000100; h_message_count := 2 |} rows /\
    length rows = 1%nat.
Proof.
  apply (first_turn_listed_in_history backend_up alice "Jayasimma/gennai"
           "agriculture" "When?" "Hello!" bobs_db).
  - exact order_by_scan_contract.
  - vm_compute. split; repeat constructor; [intros []|discriminate].
  - vm_compute. repeat constructor; discriminate.
  - reflexivity.
Defined.

(** ** More on uploads *)

Lemma allowed_file_gives_extension (filename : string) :
  allowed_file filename = true ->
  filename <> "" /\
  exists ext, extension filename = Some ext /\ ext ∈ ALLOWED_EXTENSIONS.
Proof.
  unfold allowed_file. intros H. apply andb_true_iff in H as [Hdot H]. split.
  - intros ->. discriminate Hdot.
  - destruct (extension filename) as [ext|]; [|discriminate].
    exists ext. split; [reflexivity|]. apply bool_decide_eq_true in H. exact H.
Qed.

(** The accepted path of [upload_file], spelled out. *)
Lemma upload_file_accepted (env : Env) (user_id : Z) (request : UploadRequest)
    (file : FileStorage) (db : Database) (blobs : gmap string string) :
  files_file request = Some file ->
  content_length request <= MAX_CONTENT_LENGTH ->
  allowed_file (filename file) = true ->
  let out := upload_file env (Some user_id) request db blobs in
  let stored := PyStr.of_int user_id +:+ "_" +:+ strftime_now env +:+ "_"
                +:+ secure_filename env (filename file) in
  let filepath := path_join UPLOAD_FOLDER stored in
  exists ext,
    extension (filename file) = Some ext /\ ext ∈ ALLOWED_EXTENSIONS /\
    u_response out = Json 200 [("success", JBool true);
                               ("filepath", JStr filepath);
                               ("filename", JStr stored)] /\
    u_blobs_after out = <[filepath := stream file]> blobs /\
    u_db_after out
    = {| conversations := conversations db; messages := messages db;
         uploaded_files :=
           uploaded_files db ++
           [{| f_id := seq_uploaded_files db + 1; f_user_id := user_id;
               f_conversation_id := form_conversation_id request;
               f_filename := filename file; f_file_path := filepath;
               f_file_type := ext; f_uploaded_at := current_timestamp env 0 |}];
         seq_conversations := seq_conversations db;
         seq_messages := seq_messages db;
         seq_uploaded_files := seq_uploaded_files db + 1 |}.
Proof.
  intros Hfile Hlen Hok out stored filepath.
  destruct (allowed_file_gives_extension _ Hok) as (Hne & ext & Hext & Hin).
  exists ext. split; [exact Hext|]. split; [exact Hin|].
  subst out. unfold upload_file. rewrite Hfile.
  destruct (Z.ltb_spec MAX_CONTENT_LENGTH (content_length request)); [lia|].
  destruct (String.eqb_spec (filename file) ""); [contradiction|].
  rewrite Hok. simpl. run_sql. rewrite Hext. simpl. repeat split.
Qed.

(** Every other path leaves the store and the upload folder alone. *)
Lemma upload_file_refused (env : Env) (session : Session)
    (request : UploadRequest) (db : Database) (blobs : gmap string string) :
  (forall user_id file,
     session = Some user_id -> files_file request = Some file ->
     content_length request <= MAX_CONTENT_LENGTH ->
     allowed_file (filename file) = false) ->
  let out := upload_file env session request db blobs in
  u_db_after out = db /\ u_blobs_after out = blobs /\
  forall body, u_response out <> Json 200 body.
Proof.
  intros Hno. unfold upload_file.
  destruct session as [user_id|]; [|repeat split; discriminate].
  destruct (Z.ltb_spec MAX_CONTENT_LENGTH (content_length request));
    [repeat split; discriminate|].
  destruct (files_file request) as [file|]; [|repeat split; discriminate].
  destruct (String.eqb_spec (filename file) ""); [repeat split; discriminate|].
  rewrite (Hno user_id file) by (auto; lia).
  simpl. repeat split; discriminate.
Qed.

(** [upload_file_on] with a working store is [upload_file]. *)
Lemma upload_file_on_working (env : Env) (session : Session)
    (request : UploadRequest) (db : Database) (blobs : gmap string string) :
  upload_file_on None env session request db blobs
  = upload_file env session request db blobs.
Proof. reflexivity. Qed.


(** X14. Two uploads of one user within the same second whose names
    sanitize to the same name get the same path: both rows are recorded,
    and the folder keeps only the content of the second. *)
Theorem upload_same_second_overwrites :
  forall (env : Env) (user_id : Z) (request1 request2 : UploadRequest)
         (file1 file2 : FileStorage) (db : Database)
         (blobs : gmap string string),
    files_file request1 = Some file1 ->
    files_file request2 = Some file2 ->
    content_length request1 <= MAX_CONTENT_LENGTH ->
    content_length request2 <= MAX_CONTENT_LENGTH ->
    allowed_file (filename file1) = true ->
    allowed_file (filename file2) = true ->
    secure_filename env (filename file1) = secure_filename env (filename file2) ->
    let out1 := upload_file env (Some user_id) request1 db blobs in
    let out2 := upload_file env (Some user_id) request2
                            (u_db_after out1) (u_blobs_after out1) in
    exists filepath row1 row2,
      uploaded_files (u_db_after out2)
        = (uploaded_files db ++ [row1; row2])%list /\
      f_file_path row1 = filepath /\ f_file_path row2 = filepath /\
      f_filename row1 = filename file1 /\ f_filename row2 = filename file2 /\
      u_blobs_after out2 !! filepath = Some (stream file2) /\
      u_blobs_after out2 = <[filepath := stream file2]> blobs.
Proof.
  intros env user_id request1 request2 file1 file2 db blobs
         Hf1 Hf2 Hl1 Hl2 Ha1 Ha2 Hsame out1 out2.
  destruct (upload_file_accepted env user_id request1 file1 db blobs Hf1 Hl1 Ha1)
    as (ext1 & _ & _ & _ & Hb1 & Hd1).
  fold out1 in Hb1, Hd1.
  destruct (upload_file_accepted env user_id request2 file2
              (u_db_after out1) (u_blobs_after out1) Hf2 Hl2 Ha2)
    as (ext2 & _ & _ & _ & Hb2 & Hd2).
  fold out2 in Hb2, Hd2.
  do 3 eexists. rewrite Hd2, Hb2, Hd1, Hb1, <- Hsame. cbn [uploaded_files].
  rewrite <- app_assoc. simpl.
  split; [reflexivity|]. repeat split.
  - apply lookup_insert_eq.
  - apply insert_insert_eq.
Qed.

Lemma upload_same_second_overwrites_witness :
  let first := {| content_length := 10;
                  files_file := Some {| filename := "notes.txt"; stream := "draft" |};
                  form_conversation_id := None |} in
  let second := {| content_length := 10;
                   files_file := Some {| filename := "notes.txt"; stream := "final" |};
                   form_conversation_id := None |} in
  let out1 := upload_file backend_up (Some alice) first empty_db ∅ in
  let out2 := upload_file backend_up (Some alice) second
                          (u_db_after out1) (u_blobs_after out1) in
  exists filepath row1 row2,
    uploaded_files (u_db_after out2) = [row1; row2] /\
    f_file_path row1 = filepath /\ f_file_path row2 = filepath /\
    f_filename row1 = "notes.txt" /\ f_filename row2 = "notes.txt" /\
    u_blobs_after out2 !! filepath = Some "final" /\
    u_blobs_after out2 = <[filepath := "final"]> ∅.
Proof.
  apply (upload_same_second_overwrites backend_up alice _ _
           {| filename := "notes.txt"; stream := "draft" |}
           {| filename := "notes.txt"; stream := "final" |} empty_db ∅).
  - reflexivity.
  - reflexivity.
  - vm_compute. discriminate.
  - vm_compute. discriminate.
  - vm_compute. reflexivity.
  - vm_compute. reflexivity.
  - reflexivity.
Defined.

(** X15. Every file type the store records is on the allow-list: an
    upload keeps that true of the [uploaded_files] table, whatever the
    request. *)
Theorem upload_keeps_file_types :
  forall (env : Env) (session : Session) (request : UploadRequest)
         (db : Database) (blobs : gmap string string),
    file_types_ok db ->
    file_types_ok (u_db_after (upload_file env session request db blobs)).
Proof.
  intros env session request db blobs Hok.
  destruct session as [user_id|]; [|exact Hok].
  destruct (files_file request) as [file|] eqn:Hfile.
  2:{ destruct (upload_file_refused env (Some user_id) request db blobs)
        as [Hdb _]; [|rewrite Hdb; exact Hok].
      intros ? ? _ Hf. rewrite Hfile in Hf. discriminate. }
  destruct (Z_le_gt_dec (content_length request) MAX_CONTENT_LENGTH) as [Hlen|Hlen].
  2:{ destruct (upload_file_refused env (Some user_id) request db blobs)
        as [Hdb _]; [|rewrite Hdb; exact Hok].
      intros; lia. }
  destruct (allowed_file (filename file)) eqn:Hallowed.
  - destruct (upload_file_accepted env user_id request file db blobs
                Hfile Hlen Hallowed) as (ext & _ & Hin & _ & _ & Hdb).
    rewrite Hdb. unfold file_types_ok. simpl.
    apply List.Forall_app. split; [exact Hok|]. repeat constructor. exact Hin.
  - destruct (upload_file_refused env (Some user_id) request db blobs)
      as [Hdb _]; [|rewrite Hdb; exact Hok].
    intros uid f _ Hf _. rewrite Hfile in Hf. injection Hf as <-. exact Hallowed.
Qed.

Lemma upload_keeps_file_types_witness :
  file_types_ok
    (u_db_after (upload_file backend_up (Some alice) (upload_of "Report.PDF")
                             empty_db ∅)).
Proof.
  apply (upload_keeps_file_types backend_up (Some alice) (upload_of "Report.PDF")
           empty_db ∅).
  constructor.
Defined.

(** ** Accounts *)

Lemma violates_unique_false (username email : string) (us : list User) :
  violates_unique username email us = false <->
  (forall u, In u us -> u_username u <> username /\ u_email u <> email).
Proof.
  unfold violates_unique. induction us as [|x us IH]; simpl.
  - split; [intros _ u []|reflexivity].
  - rewrite orb_false_iff, IH, orb_false_iff, !String.eqb_neq. split.
    + intros [[H1 H2] Hrest] u [<-|Hu]; [split; assumption|apply Hrest; exact Hu].
    + intros H. split; [apply H; left; reflexivity|].
      intros u Hu. apply H. right. exact Hu.
Qed.

(** X16. Registration followed by login: when the name and the address
    are free, and the password checks against the hash made from it, the
    registration is stored and a login with the same name and password
    opens a session for the new user id, whatever session there was. *)
Theorem register_then_login :
  forall (hasher : Hasher) (now : Z) (username email password : string)
         (session : SessionState) (table : UserTable),
    check_password_hash hasher (generate_password_hash hasher password) password
      = true ->
    (forall u, In u (users table) ->
               u_username u <> username /\ u_email u <> email) ->
    let registered :=
      register hasher now POST (register_form username email password) table in
    fst registered = Redirected "login" "Registration successful! Please login." /\
    login hasher POST (login_form username password) session (snd registered)
    = (Redirected "select_domain" "Login successful!",
       {| s_user_id := Some (seq_users table + 1);
          s_username := Some username |}).
Proof.
  intros hasher now username email password session table Hcheck Hfree.
  apply violates_unique_false in Hfree as Hunique.
  unfold register, register_form. cbn [rf_username rf_email rf_password].
  rewrite Hunique. cbn [fst snd]. split; [reflexivity|].
  unfold login, login_form, fetch_user. cbn [lf_username lf_password users].
  rewrite find_app_none.
  - cbn [List.find u_username]. rewrite String.eqb_refl.
    cbn [u_password u_id u_username]. rewrite Hcheck. reflexivity.
  - intros u Hu. apply String.eqb_neq. apply Hfree. exact Hu.
Qed.

Lemma register_then_login_witness :
  login demo_hasher POST (login_form "asha" "s3cret") anonymous one_user
  = (Redirected "select_domain" "Login successful!",
     {| s_user_id := Some 1; s_username := Some "asha" |}).
Proof.
  apply (register_then_login demo_hasher 1700000000 "asha" "asha@example.org"
           "s3cret" anonymous no_users).
  - reflexivity.
  - intros u [].
Defined.

(** X17. A registration whose name or address is already taken stores
    nothing: the form is rendered again with the message that one of the
    two exists, without saying which. *)
Theorem register_rejects_taken :
  forall (hasher : Hasher) (now : Z) (username email password : string)
         (table : UserTable),
    (exists u, In u (users table) /\
               (u_username u = username \/ u_email u = email)) ->
    register hasher now POST (register_form username email password) table
    = (Rendered "register.html" (Some "Username or email already exists."),
       table).
Proof.
  intros hasher now username email password table (u & Hin & Htaken).
  unfold register, register_form. cbn [rf_username rf_email rf_password].
  destruct (violates_unique username email (users table)) eqn:Hv; [reflexivity|].
  exfalso. destruct (proj1 (violates_unique_false _ _ _) Hv u Hin) as [H1 H2].
  destruct Htaken; contradiction.
Qed.

Lemma register_rejects_taken_witness :
  register demo_hasher 1700000500 POST
    (register_form "asha" "other@example.org" "pw") one_user
  = (Rendered "register.html" (Some "Username or email already exists."),
     one_user).
Proof.
  apply (register_rejects_taken demo_hasher 1700000500 "asha"
           "other@example.org" "pw" one_user).
  eexists. split; [left; reflexivity|]. left. reflexivity.
Defined.

(** X18. The constraints of the [users] table survive every request to
    [register]: user names, addresses and ids stay unique, and ids stay
    bounded by the counter. *)
Theorem register_keeps_users_ok :
  forall (hasher : Hasher) (now : Z) (method : Method) (form : RegisterForm)
         (table : UserTable),
    users_ok table ->
    users_ok (snd (register hasher now method form table)).
Proof.
  intros hasher now method form table Hok. unfold register.
  destruct method; [exact Hok|].
  destruct (rf_username form) as [username|]; [|exact Hok].
  destruct (rf_email form) as [email|]; [|exact Hok].
  destruct (rf_password form) as [password|]; [|exact Hok].
  destruct (violates_unique username email (users table)) eqn:Hv; [exact Hok|].
  destruct Hok as (Hn & He & Hi & Hle).
  pose proof (proj1 (violates_unique_false _ _ _) Hv) as Hfree.
  unfold users_ok. cbn [snd users seq_users]. rewrite !List.map_app. simpl.
  repeat split.
  - apply List.NoDup_app; [exact Hn|repeat constructor; intros []|].
    intros x Hx [<-|[]]. apply List.in_map_iff in Hx as (u & Heq & Hu).
    destruct (Hfree u Hu) as [H _]. contradiction.
  - apply List.NoDup_app; [exact He|repeat constructor; intros []|].
    intros x Hx [<-|[]]. apply List.in_map_iff in Hx as (u & Heq & Hu).
    destruct (Hfree u Hu) as [_ H]. contradiction.
  - apply List.NoDup_app; [exact Hi|repeat constructor; intros []|].
    intros x Hx [<-|[]]. apply List.in_map_iff in Hx as (u & Heq & Hu).
    rewrite List.Forall_forall in Hle. specialize (Hle u Hu). lia.
  - apply List.Forall_app. split.
    + eapply List.Forall_impl; [|exact Hle]. simpl. intros; lia.
    + repeat constructor. simpl. lia.
Qed.

Lemma register_keeps_users_ok_witness : users_ok one_user.
Proof.
  apply (register_keeps_users_ok demo_hasher 1700000000 POST
           (register_form "asha" "asha@example.org" "s3cret") no_users).
  repeat split; constructor.
Defined.

(** X19. [login] changes the session only for a stored user whose hash
    accepts the password: in every other case, an unknown name, a wrong
    password, a missing field or a GET, the session is left as it was. *)
Theorem login_grants_only_checked :
  forall (hasher : Hasher) (method : Method) (form : LoginForm)
         (session : SessionState) (table : UserTable),
    let answer := login hasher method form session table in
    snd answer = session \/
    (exists user password,
       method = POST /\
       In user (users table) /\
       lf_username form = Some (u_username user) /\
       lf_password form = Some password /\
       check_password_hash hasher (u_password user) password = true /\
       answer = (Redirected "select_domain" "Login successful!",
                 {| s_user_id := Some (u_id user);
                    s_username := Some (u_username user) |})).
Proof.
  intros hasher method form session table. unfold login.
  destruct method; [left; reflexivity|].
  destruct (lf_username form) as [username|]; [|left; reflexivity].
  destruct (lf_password form) as [password|]; [|left; reflexivity].
  destruct (fetch_user username table) as [user|] eqn:Hfetch; [|left; reflexivity].
  destruct (check_password_hash hasher (u_password user) password) eqn:Hcheck;
    [|left; reflexivity].
  right. exists user, password.
  apply List.find_some in Hfetch as [Hin Hname].
  apply String.eqb_eq in Hname. subst username.
  repeat split; assumption.
Qed.

(** X20. After [logout] every protected view answers with the redirect to
    the login page and does nothing else: no row is written, no file is
    saved, the backend is not asked, and nothing of the store is shown. *)
Theorem logged_out_requests_do_nothing :
  forall (env : Env) (session : SessionState) (data : ChatData)
         (request : UploadRequest) (conversation_id : Z)
         (domain segment : string) (db : Database)
         (blobs : gmap string string),
    let s := session_of (snd (logout session)) in
    api_chat env s data db
      = {| response := login_redirect; db_after := db; trace := [] |} /\
    upload_file env s request db blobs
      = upload_rejected login_redirect db blobs /\
    history env s db = login_redirect /\
    view_conversation env s conversation_id db = login_redirect /\
    chat s domain segment = login_redirect /\
    select_model s domain = login_page /\
    select_domain s = login_page.
Proof. intros. repeat split. Qed.

(** ** The contact form *)

(** X21. The contact form needs no login and checks nothing but
    presence.  A POST with its four fields appends one submission that
    carries them as sent, numbered after the counter; a POST that lacks a
    field ends in an unhandled database error, and like a GET it stores
    nothing. *)
Theorem contact_stores_complete_posts :
  forall (now : Z) (method : Method) (form : ContactForm) (table : ContactTable),
    let answer := contact now method form table in
    (exists name email subject message,
       method = POST /\
       form = {| cf_name := Some name; cf_email := Some email;
                 cf_subject := Some subject; cf_message := Some message |} /\
       fst answer
         = Redirected "contact"
             "Thank you for your message! We will get back to you soon." /\
       submissions (snd answer)
         = (submissions table ++
            [{| cs_id := seq_contact table + 1; cs_name := name;
                cs_email := email; cs_subject := subject;
                cs_message := message; cs_submitted_at := now |}])%list /\
       seq_contact (snd answer) = seq_contact table + 1)
    \/
    (snd answer = table /\
     ((method = GET /\ fst answer = Rendered "contact.html" None) \/
      (method = POST /\
       (cf_name form = None \/ cf_email form = None \/
        cf_subject form = None \/ cf_message form = None) /\
       exists e, fst answer = ServerError e))).
Proof.
  intros now method [name email subject message] table.
  destruct method; [right; split; [reflexivity|left; split; reflexivity]|].
  destruct name as [name|], email as [email|], subject as [subject|],
           message as [message|]; simpl;
    try (right; split; [reflexivity|];
         right; split; [reflexivity|]; split; [tauto|eexists; reflexivity]).
  left. exists name, email, subject, message. repeat split.
Qed.

(** ** The setup script *)

Lemma create_each_result (h : Setup.Host) (ds : list string) :
  fst (Setup.create_each h ds) = forallb (Setup.makedirs h) ds.
Proof.
  induction ds as [|d ds IH]; simpl; [reflexivity|].
  destruct (Setup.makedirs h d); [|reflexivity].
  destruct (Setup.create_each h ds). exact IH.
Qed.

Lemma create_each_all (h : Setup.Host) (ds : list string) :
  Forall (fun d => Setup.makedirs h d = true) ds ->
  Setup.create_each h ds = (true, ds).
Proof.
  induction 1 as [|d ds Hd _ IH]; simpl; [reflexivity|].
  rewrite Hd, IH. reflexivity.
Qed.

Lemma create_each_stops (h : Setup.Host) (pre post : list string) (d : string) :
  Forall (fun x => Setup.makedirs h x = true) pre ->
  Setup.makedirs h d = false ->
  Setup.create_each h (pre ++ d :: post) = (false, (pre ++ [d])%list).
Proof.
  induction 1 as [|x pre Hx _ IH]; simpl; intros Hd.
  - rewrite Hd. reflexivity.
  - rewrite Hx, (IH Hd). reflexivity.
Qed.

(** X22. [create_directories] gives up at the first directory it cannot
    make: the directories after it are not tried and the result is
    False; when every directory can be made, all five are tried and the
    result is True. *)
Theorem create_directories_stops_at_first_failure :
  forall (h : Setup.Host),
    (Forall (fun d => Setup.makedirs h d = true) Setup.directories ->
     Setup.create_directories h = (true, Setup.directories)) /\
    (forall pre d post,
       Setup.directories = (pre ++ d :: post)%list ->
       Forall (fun x => Setup.makedirs h x = true) pre ->
       Setup.makedirs h d = false ->
       Setup.create_directories h = (false, (pre ++ [d])%list)).
Proof.
  intros h. unfold Setup.create_directories. split.
  - apply create_each_all.
  - intros pre d post -> Hpre Hd. apply create_each_stops; assumption.
Qed.

Lemma create_directories_stops_at_first_failure_witness :
  let h := {| Setup.version_info := (3, 11); Setup.executable := "python";
              Setup.makedirs := fun d => negb (String.eqb d "static/images");
              Setup.run := fun _ => true; Setup.importable := fun _ => true;
              Setup.input := "" |} in
  Setup.create_directories h = (false, ["uploads"; "static"; "static/images"]) /\
  Setup.create_directories demo_host = (true, Setup.directories).
Proof.
  split.
  - apply (create_directories_stops_at_first_failure _)
      with (pre := ["uploads"; "static"]) (d := "static/images")
           (post := ["static/images/icons"; "templates"]).
    + reflexivity.
    + repeat constructor.
    + reflexivity.
  - apply (create_directories_stops_at_first_failure demo_host).
    repeat constructor.
Defined.

Lemma install_each_result (h : Setup.Host) (ps : list string) (acc : bool) :
  Setup.install_each h ps acc
  = (acc && forallb (fun p => Setup.run h (Setup.pip_install h p)) ps,
     List.map (Setup.pip_install h) ps).
Proof.
  revert acc. induction ps as [|p ps IH]; intros acc; simpl.
  - rewrite andb_true_r. reflexivity.
  - rewrite IH. unfold Setup.run_command.
    destruct (Setup.run h (Setup.pip_install h p)), acc; reflexivity.
Qed.

(** X23. [install_packages] tries every package even after one has
    failed: it always runs the pip upgrade and then the five installs in
    order, and its result is True exactly when the five installs all
    succeeded, whatever became of the upgrade. *)
Theorem install_packages_runs_all :
  forall (h : Setup.Host),
    snd (Setup.install_packages h)
      = Setup.pip_install h "--upgrade pip"
        :: List.map (Setup.pip_install h) Setup.packages /\
    fst (Setup.install_packages h)
      = forallb (fun p => Setup.run h (Setup.pip_install h p)) Setup.packages.
Proof.
  intros h. unfold Setup.install_packages.
  rewrite install_each_result. split; reflexivity.
Qed.

Lemma verify_each_result (h : Setup.Host) (ms : list (string * string))
    (acc : bool) :
  Setup.verify_each h ms acc
  = acc && forallb (fun m => Setup.importable h (fst m)) ms.
Proof.
  revert acc. induction ms as [|[m p] ms IH]; intros acc; simpl.
  - rewrite andb_true_r. reflexivity.
  - rewrite IH. destruct (Setup.importable h m), acc; reflexivity.
Qed.

Lemma install_packages_result (h : Setup.Host) :
  fst (Setup.install_packages h)
  = forallb (fun p => Setup.run h (Setup.pip_install h p)) Setup.packages.
Proof.
  unfold Setup.install_packages. rewrite install_each_result. reflexivity.
Qed.

Lemma check_python_iff (h : Setup.Host) :
  Setup.check_python h = true <->
  (3 < fst (Setup.version_info h) \/
   (fst (Setup.version_info h) = 3 /\ 8 <= snd (Setup.version_info h))).
Proof.
  unfold Setup.check_python.
  destruct (Setup.version_info h) as [major minor]. cbn [fst snd].
  destruct (Z.ltb_spec major 3); destruct (Z.eqb_spec major 3);
    destruct (Z.ltb_spec minor 8); cbn [orb andb];
    split; intros Hv; try discriminate; try reflexivity; lia.
Qed.

(** X24. [main] runs to its end exactly when the interpreter is 3.8 or
    newer, every directory can be made, the packages all install or the
    answer to the prompt is y in either case, and every required module
    imports.  Writing the configuration file, initialising the database
    and looking for Ollama have no say in it; every other run exits with
    status 1. *)
Theorem main_completes_iff :
  forall (h : Setup.Host),
    (snd (Setup.main h) = 0 \/ snd (Setup.main h) = 1) /\
    (snd (Setup.main h) = 0 <->
     (3 < fst (Setup.version_info h) \/
      (fst (Setup.version_info h) = 3 /\ 8 <= snd (Setup.version_info h))) /\
     (forall d, In d Setup.directories -> Setup.makedirs h d = true) /\
     ((forall p, In p Setup.packages ->
                 Setup.run h (Setup.pip_install h p) = true) \/
      PyStr.lower (Setup.input h) = "y") /\
     (forall m, In m Setup.required_modules ->
                Setup.importable h (fst m) = true)).
Proof.
  intros h.
  rewrite <- check_python_iff, <- !List.forallb_forall, <- String.eqb_eq.
  unfold Setup.main, Setup.create_directories, Setup.verify_installation.
  rewrite create_each_result, verify_each_result, install_packages_result.
  destruct (Setup.check_python h);
    destruct (forallb (Setup.makedirs h) Setup.directories);
    destruct (forallb (fun p => Setup.run h (Setup.pip_install h p))
                      Setup.packages);
    destruct (String.eqb (PyStr.lower (Setup.input h)) "y");
    destruct (forallb (fun m => Setup.importable h (fst m))
                      Setup.required_modules);
    cbn [negb andb orb fst snd];
    (split; [auto|]); split; intros H; try discriminate H; try reflexivity;
    try (repeat split; auto; fail);
    try (destruct H as (H1 & H2 & H3 & H4); try discriminate;
         destruct H3; discriminate).
Qed.
